(** * Skillora Analytics: the typed API client ([frontend/src/lib/api.ts])

    A shallow embedding of the client module that talks to the ingestion and
    analytics endpoints, and of the nearest-rank percentile that the
    specification prescribes for the analytics aggregator.

    Conventions of the embedding.
    - A JavaScript value is a term of [value]; a property that is absent reads
      as [VUndefined], as in the language.
    - A JavaScript number is a term of [number]: the two infinities, NaN and
      the finite numbers, held as rationals.  Every finite double is a
      rational, and the numeric operations the module uses ([Math.round],
      [Math.min], [Math.max], comparisons with 0) are exact on doubles, so
      they are computed exactly on the rationals.  The sign of zero, which no
      operation of the module observes, is not kept.
    - An [async] function is a function into [promise]: [Fulfilled v] is the
      promise that resolves with [v], [Rejected e] the one that rejects with
      the exception [e].
    - An object is the list of its own properties in the order of their
      creation; [Object.entries] and the spread enumerate them in the order
      of the language, array indices first ([own_properties]).
    - A conversion that the language lets fail fails here too: [String] and
      [Number] reject with a [TypeError] on a parsed object that has a
      property named [toString], and on an array that holds one.
    - The built-ins whose result comes from the tables of the runtime,
      [String.prototype.toUpperCase], [Number] on a string, [String] on a
      number and [JSON.stringify], are variables of the section [Runtime]:
      what is proved holds for every runtime.  Of a character the module
      itself observes only whether it is [_], [-] or an ASCII word character
      (the pattern of [toCamel]).
    - [fetch] is the environment: each endpoint function takes the
      [Response] the request resolved with.  The URL, method and headers of
      the request do not influence what the module does with the response. *)

From Stdlib Require Import ZArith QArith Qround Qabs Lqa Bool List Permutation Lia.
From Stdlib Require Import Ascii String DecimalString.
Import ListNotations.

Local Open Scope bool_scope.
Local Open Scope string_scope.
Local Open Scope Z_scope.

(** ** Numbers and values *)

Inductive number : Type :=
| NaN
| PInf
| NInf
| Fin (q : Q).

#[local] Unset Elimination Schemes.

Inductive value : Type :=
| VUndefined
| VNull
| VBool (b : bool)
| VNum (n : number)
| VStr (s : string)
| VArr (items : list value)
| VObj (fields : list (string * value)).

#[local] Set Elimination Schemes.

(** An object is the list of its own enumerable properties, in the order in
    which they were created: for a parsed payload, the order of the JSON
    text.  The order in which the properties are enumerated is another one,
    see [own_properties]. *)
Definition object : Type := list (string * value).

(** [typeof v === 'number'], [typeof v === 'string'], [Array.isArray(v)]. *)
Definition is_number (v : value) : bool :=
  match v with VNum _ => true | _ => false end.

Definition is_string (v : value) : bool :=
  match v with VStr _ => true | _ => false end.

Definition isArray (v : value) : bool :=
  match v with VArr _ => true | _ => false end.

(** [v === null || v === undefined], the test behind [??] and [?.]. *)
Definition nullish (v : value) : bool :=
  match v with VUndefined | VNull => true | _ => false end.

(** [a ?? b] *)
Definition coalesce (a b : value) : value :=
  if nullish a then b else a.

Infix "??" := coalesce (at level 45, right associativity).

(** [Boolean(v)], also the truth value of [v] in [!v] and [v ? a : b]. *)
Definition ToBoolean (v : value) : bool :=
  match v with
  | VUndefined | VNull => false
  | VBool b => b
  | VNum NaN => false
  | VNum (Fin q) => negb (Qeq_bool q 0)
  | VNum _ => true
  | VStr s => negb (s =? "")%string
  | VArr _ | VObj _ => true
  end.

(** ** Numeric built-ins *)

(** [Math.round]: the nearest integer, a tie going towards +infinity. *)
Definition round_half_up (q : Q) : Z := Qfloor (q + (1 # 2)).

Definition Math_round (n : number) : number :=
  match n with
  | Fin q => Fin (inject_Z (round_half_up q))
  | _ => n
  end.

(** [a <= b] on numbers; false as soon as one side is NaN. *)
Definition num_leb (a b : number) : bool :=
  match a, b with
  | NaN, _ | _, NaN => false
  | NInf, _ => true
  | _, PInf => true
  | PInf, _ => false
  | _, NInf => false
  | Fin x, Fin y => Qle_bool x y
  end.

Definition Math_min (a b : number) : number :=
  match a, b with
  | NaN, _ | _, NaN => NaN
  | _, _ => if num_leb a b then a else b
  end.

Definition Math_max (a b : number) : number :=
  match a, b with
  | NaN, _ | _, NaN => NaN
  | _, _ => if num_leb a b then b else a
  end.

Definition num_of_Z (z : Z) : number := Fin (inject_Z z).

(** A finite number that is not negative. *)
Definition finite_nonneg (n : number) : bool :=
  match n with
  | Fin q => Qle_bool 0 q
  | _ => false
  end.

(** ** Strings *)

Definition code (c : ascii) : nat := nat_of_ascii c.

Definition between (lo hi : nat) (c : ascii) : bool :=
  (Nat.leb lo (code c)) && (Nat.leb (code c) hi).

Definition is_lower (c : ascii) : bool := between 97 122 c.

(** The class [\w] of a regular expression without the [u] flag. *)
Definition is_word (c : ascii) : bool :=
  between 48 57 c || between 65 90 c || between 97 122 c || Nat.eqb (code c) 95.

(** The class [[_-]]. *)
Definition is_sep (c : ascii) : bool :=
  Nat.eqb (code c) 95 || Nat.eqb (code c) 45.

Definition upper_char (c : ascii) : ascii :=
  if is_lower c then ascii_of_nat (code c - 32) else c.

(** [s.replace(/[_-](\w)/g, (_, c) => c.toUpperCase())]: the matches are
    taken from left to right and do not overlap. *)
Fixpoint toCamel (s : string) : string :=
  match s with
  | EmptyString => EmptyString
  | String c t =>
      match t with
      | String d rest =>
          if is_sep c && is_word d
          then String (upper_char d) (toCamel rest)
          else String c (toCamel t)
      | EmptyString => String c EmptyString
      end
  end.

(** [s.includes(sub)] *)
Fixpoint includes (s sub : string) : bool :=
  String.prefix sub s ||
  match s with
  | EmptyString => false
  | String _ t => includes t sub
  end.

(** The decimal numeral of a natural number, as [String(i)] gives it for an
    array index or a status code. *)
Definition nat_to_string (n : nat) : string :=
  NilEmpty.string_of_uint (Nat.to_uint n).

(** ** Objects *)

(** [o[k]] on the own properties. *)
Fixpoint lookup (k : string) (o : object) : value :=
  match o with
  | [] => VUndefined
  | (k', v) :: o' => if (k =? k')%string then v else lookup k o'
  end.

(** [k in o] on the own properties. *)
Fixpoint has_key (k : string) (o : object) : bool :=
  match o with
  | [] => false
  | (k', _) :: o' => (k =? k')%string || has_key k o'
  end.

(** [o[k] = v]: an existing property keeps its place. *)
Fixpoint set_prop (k : string) (v : value) (o : object) : object :=
  match o with
  | [] => [(k, v)]
  | (k', v') :: o' =>
      if (k =? k')%string then (k, v) :: o' else (k', v') :: set_prop k v o'
  end.

(** [Object.fromEntries]: a later entry overrides an earlier one. *)
Definition fromEntries (es : list (string * value)) : object :=
  fold_left (fun o kv => set_prop (fst kv) (snd kv) o) es [].

Fixpoint indexed_from {A : Type} (i : nat) (l : list A) : list (string * A) :=
  match l with
  | [] => []
  | x :: l' => (nat_to_string i, x) :: indexed_from (S i) l'
  end.

Fixpoint chars (s : string) : list value :=
  match s with
  | EmptyString => []
  | String c t => VStr (String c EmptyString) :: chars t
  end.

(** An array index is the canonical decimal numeral of an integer below
    2^32 - 1: no sign, no leading zero. *)
Definition is_digit (c : ascii) : bool := between 48 57 c.

Fixpoint digits_value (acc : N) (s : string) : option N :=
  match s with
  | EmptyString => Some acc
  | String c t =>
      if is_digit c
      then digits_value (10 * acc + N.of_nat (code c - 48)) t
      else None
  end.

Definition array_index (k : string) : option N :=
  match k with
  | EmptyString => None
  | String c t =>
      if Nat.eqb (code c) 48 && negb (t =? "")%string then None
      else match digits_value 0 k with
           | Some i => if (i <=? 4294967294)%N then Some i else None
           | None => None
           end
  end.

Definition is_index (k : string) : bool :=
  match array_index k with Some _ => true | None => false end.

(** The order in which the own properties of an object are enumerated: the
    properties whose name is an array index first, by ascending index, then
    the others in the order of their creation. *)
Definition index_leb (a b : string * value) : bool :=
  match array_index (fst a), array_index (fst b) with
  | Some i, Some j => (i <=? j)%N
  | _, _ => true
  end.

Fixpoint insert_indexed (e : string * value) (l : object) : object :=
  match l with
  | [] => [e]
  | e' :: l' => if index_leb e e' then e :: l else e' :: insert_indexed e l'
  end.

Fixpoint sort_indexed (l : object) : object :=
  match l with
  | [] => []
  | e :: l' => insert_indexed e (sort_indexed l')
  end.

Definition own_properties (fields : object) : object :=
  (sort_indexed (filter (fun kv => is_index (fst kv)) fields) ++
   filter (fun kv => negb (is_index (fst kv))) fields)%list.

Arguments own_properties : simpl never.

(** [Object.entries(v)], which is also what the spread [{...v}] copies: the
    properties of an object in the order of their enumeration, the indexed
    elements of an array, the indexed characters of a string, nothing for
    the other primitives. *)
Definition entries (v : value) : list (string * value) :=
  match v with
  | VObj fields => own_properties fields
  | VArr items => indexed_from 0%nat items
  | VStr s => indexed_from 0%nat (chars s)
  | _ => []
  end.

(** [v[k]] for the property names the module reads ([data], [percent],
    [stack], [p50], ...): none of them is an index, [length] or a member of
    a prototype, so only an object can hold one.  Reading a property of
    [null] or [undefined] is a [TypeError]; [get] is used where the module
    has excluded them. *)
Definition get (v : value) (k : string) : value :=
  match v with
  | VObj fields => lookup k fields
  | _ => VUndefined
  end.

(** ** Promises and errors *)

Inductive error : Type :=
| ApiError (message : string) (status : nat) (payload : value)
| Error (message : string)
| TypeError
| SyntaxError.

Inductive promise (A : Type) : Type :=
| Fulfilled (a : A)
| Rejected (e : error).

Arguments Fulfilled {A} a.
Arguments Rejected {A} e.

Definition bind {A B : Type} (m : promise A) (k : A -> promise B) : promise B :=
  match m with
  | Fulfilled a => k a
  | Rejected e => Rejected e
  end.

Notation "'await' x <- m ;; k" := (bind m (fun x => k))
  (at level 61, x name, m at next level, right associativity).

(** [l.map(f)] where [f] may throw: the first exception ends the loop. *)
Fixpoint traverse {A B : Type} (f : A -> promise B) (l : list A) : promise (list B) :=
  match l with
  | [] => Fulfilled []
  | x :: l' =>
      await y <- f x ;;
      await ys <- traverse f l' ;;
      Fulfilled (y :: ys)
  end.

(** ** Public types *)

Record UploadResponse : Type := { fileId : value }.

Record MapResponse : Type := { taskId : value }.

(** [meta] and [result] are optional: [None] is a [meta] that is
    [undefined]. *)
Record TaskStatusResp : Type := {
  ts_id : value;
  ts_state : string;
  ts_meta : option object;
  ts_ready : bool;
  ts_successful : bool;
  ts_result : value
}.

Record SalarySummary : Type := {
  sum_p50 : number;
  sum_p75 : number;
  sum_p90 : number;
  sum_n : number
}.

Record StackCompareRow : Type := {
  row_stack : string;
  row_p50 : number;
  row_n : number
}.

(** The response [fetch] resolved with.  [body_json] is what [res.json()]
    gives: [None] when the body is not JSON text and the call rejects. *)
Record Response : Type := {
  status : nat;
  statusText : string;
  content_type : option string;
  body_text : string;
  body_json : option value
}.

(** [res.ok] *)
Definition ok (res : Response) : bool :=
  Nat.leb 200 (status res) && Nat.leb (status res) 299.

(** ** Normalizers *)

Definition normalizeKeys (obj : value) : object :=
  fromEntries (map (fun kv => (toCamel (fst kv), snd kv)) (entries (obj ?? VObj []))).

Definition normalizeUpload (raw : value) : promise UploadResponse :=
  let n := normalizeKeys raw in
  if negb (ToBoolean (lookup "fileId" n))
  then Rejected (Error "Invalid upload response")
  else Fulfilled {| fileId := lookup "fileId" n |}.

Definition normalizeMap (raw : value) : promise MapResponse :=
  let n := normalizeKeys raw in
  let t := lookup "taskId" n ?? lookup "id" n in
  if negb (ToBoolean t)
  then Rejected (Error "Invalid map response")
  else Fulfilled {| taskId := t |}.

(** [Math.max(0, Math.min(100, Math.round(p)))] *)
Definition clamp_percent (p : number) : number :=
  Math_max (num_of_Z 0) (Math_min (num_of_Z 100) (Math_round p)).

(** ** The module, over the built-ins of the language runtime

    [String.prototype.toUpperCase], [Number(s)] on a string, [String(x)] on a
    number and [JSON.stringify] are built-ins of the runtime; the module is
    embedded over them. *)

Section Runtime.

Variable toUpperCase : string -> string.
Variable StringToNumber : string -> number.
Variable NumberToString : number -> string.
Variable JSON_stringify : value -> string.

Definition normalizeTaskStatus (raw : value) : promise TaskStatusResp :=
  let n := normalizeKeys raw in
  let m := lookup "meta" n in
  let p := if nullish m then VUndefined else get m "percent" in
  let bounded :=
    match p with
    | VNum x => VNum (clamp_percent x)
    | _ => VUndefined
    end in
  match lookup "state" n ?? lookup "status" n ?? VStr "PENDING" with
  | VStr s =>
      Fulfilled {|
        ts_id := lookup "taskId" n ?? lookup "id" n ?? VStr "";
        ts_state := toUpperCase s;
        ts_meta :=
          if ToBoolean m then Some (set_prop "percent" bounded (entries m)) else None;
        ts_ready := ToBoolean (lookup "ready" n);
        ts_successful := ToBoolean (lookup "successful" n);
        ts_result := lookup "result" n
      |}
  | _ => Rejected TypeError
  end.

(** [String(v)].  An array joins its elements with commas, [null] and
    [undefined] elements giving the empty string.  A parsed object has the
    [toString] of [Object.prototype], unless the payload gave it a property
    of that name: that one is no function, the conversion finds no method
    that yields a primitive, and it is a [TypeError]. *)
Fixpoint ToString (v : value) : promise string :=
  match v with
  | VUndefined => Fulfilled "undefined"
  | VNull => Fulfilled "null"
  | VBool true => Fulfilled "true"
  | VBool false => Fulfilled "false"
  | VNum n => Fulfilled (NumberToString n)
  | VStr s => Fulfilled s
  | VArr items =>
      await parts <-
        traverse (fun x => if nullish x then Fulfilled "" else ToString x) items ;;
      Fulfilled (String.concat "," parts)
  | VObj fields =>
      if has_key "toString" fields then Rejected TypeError
      else Fulfilled "[object Object]"
  end.

(** [Number(v)]; an array or an object goes through its string, the
    [valueOf] of [Object.prototype] giving no primitive. *)
Definition ToNumber (v : value) : promise number :=
  match v with
  | VUndefined => Fulfilled NaN
  | VNull => Fulfilled (num_of_Z 0)
  | VBool true => Fulfilled (num_of_Z 1)
  | VBool false => Fulfilled (num_of_Z 0)
  | VNum n => Fulfilled n
  | VStr s => Fulfilled (StringToNumber s)
  | VArr _ | VObj _ =>
      await s <- ToString v ;;
      Fulfilled (StringToNumber s)
  end.

(** *** HTTP *)

Definition getErrorDetail (payload : value) : string :=
  match payload with
  | VObj fields =>
      if has_key "detail" fields then
        match lookup "detail" fields with
        | VStr d => d
        | _ => JSON_stringify payload
        end
      else JSON_stringify payload
  | VStr s => s
  | _ => JSON_stringify payload
  end.

(** [(res.headers.get('content-type') || '').includes('application/json')] *)
Definition isJson (res : Response) : bool :=
  includes (match content_type res with Some s => s | None => "" end)
           "application/json".

(** The payload an [ApiError] is built with:
    [isJson ? await res.json().catch(() => ({})) : await res.text()]. *)
Definition error_payload (res : Response) : value :=
  if isJson res
  then match body_json res with Some v => v | None => VObj [] end
  else VStr (body_text res).

Definition error_message (res : Response) : string :=
  let detail := getErrorDetail (error_payload res) in
  "[" ++ nat_to_string (status res) ++ "] " ++ statusText res ++
  (if (detail =? "")%string then "" else " - " ++ detail).

Definition requestJson (res : Response) : promise value :=
  if negb (ok res)
  then Rejected (ApiError (error_message res) (status res) (error_payload res))
  else match body_json res with
       | Some v => Fulfilled v
       | None => Rejected SyntaxError
       end.

(** *** Endpoints *)

Definition uploadFile (res : Response) : promise UploadResponse :=
  await raw <- requestJson res ;;
  normalizeUpload raw.

Definition mapColumns (res : Response) : promise MapResponse :=
  await raw <- requestJson res ;;
  normalizeMap raw.

Definition taskStatus (res : Response) : promise TaskStatusResp :=
  await raw <- requestJson res ;;
  normalizeTaskStatus raw.

(** The local [num] of [salarySummary]; its [fallback] is 0 at every call. *)
Definition num (v : value) (fallback : number) : promise number :=
  match v with
  | VNum x => Fulfilled x
  | _ => ToNumber (v ?? VNum fallback)
  end.

(** [raw?.data ?? raw ?? {}] *)
Definition summary_container (raw : value) : value :=
  (if nullish raw then VUndefined else get raw "data") ?? raw ?? VObj [].

Definition salarySummary (res : Response) : promise SalarySummary :=
  await raw <- requestJson res ;;
  let container := summary_container raw in
  await p50 <- num (get container "p50" ?? get container "median") (num_of_Z 0) ;;
  await p75 <- num (get container "p75") (num_of_Z 0) ;;
  await p90 <- num (get container "p90") (num_of_Z 0) ;;
  await n <- num (get container "n" ?? get container "count") (num_of_Z 0) ;;
  Fulfilled {| sum_p50 := p50; sum_p75 := p75; sum_p90 := p90; sum_n := n |}.

(** The callback [stackCompare] maps over the rows.  [row.stack] is read
    first, and it is a [TypeError] on [null] and [undefined]. *)
Definition stackRow (r : value) : promise StackCompareRow :=
  if nullish r then Rejected TypeError
  else
    let stack :=
      if is_string (get r "stack") then get r "stack"
      else if is_string (get r "tech") then get r "tech"
      else VStr "-" in
    await p50 <-
      (if is_number (get r "p50") then Fulfilled (get r "p50")
       else if is_number (get r "median") then Fulfilled (get r "median")
       else await x <- ToNumber (get r "p50" ?? get r "median" ?? VNum (num_of_Z 0)) ;;
            Fulfilled (VNum x)) ;;
    await n <-
      (if is_number (get r "n") then Fulfilled (get r "n")
       else if is_number (get r "count") then Fulfilled (get r "count")
       else await x <- ToNumber (get r "n" ?? get r "count" ?? VNum (num_of_Z 0)) ;;
            Fulfilled (VNum x)) ;;
    await s <- ToString stack ;;
    await x <- ToNumber p50 ;;
    await y <- ToNumber n ;;
    Fulfilled {| row_stack := s; row_p50 := x; row_n := y |}.

(** [container?.data ?? container] *)
Definition compare_rows (raw : value) : value :=
  (if nullish raw then VUndefined else get raw "data") ?? raw.

Definition stackCompare (res : Response) : promise (list StackCompareRow) :=
  await raw <- requestJson res ;;
  match compare_rows raw with
  | VArr items => traverse stackRow items
  | _ => Fulfilled []
  end.

End Runtime.

(** ** What [JSON.parse] can return

    A parsed payload holds no [undefined] and no NaN, and the keys of each of
    its objects are distinct. *)

Fixpoint distinct_keys (o : object) : bool :=
  match o with
  | [] => true
  | (k, _) :: o' => negb (has_key k o') && distinct_keys o'
  end.

Fixpoint is_json (v : value) : bool :=
  match v with
  | VUndefined => false
  | VNull | VBool _ | VStr _ => true
  | VNum NaN => false
  | VNum _ => true
  | VArr items => forallb is_json items
  | VObj fields =>
      distinct_keys fields && forallb (fun kv => is_json (snd kv)) fields
  end.

(** A property name made of lower-case letters only: [toCamel] leaves it as
    it is, and no other name is turned into it. *)
Fixpoint all_lower (s : string) : bool :=
  match s with
  | EmptyString => true
  | String c t => is_lower c && all_lower t
  end.

Definition plain (s : string) : bool :=
  negb (s =? "")%string && all_lower s.

(** The names [toCamel] turns into [taskId]. *)
Definition taskId_names : list string :=
  ["taskId"; "task_id"; "task-id"; "task_Id"; "task-Id"].

(** ** The lifecycle names of the specification *)

Definition canonical_states : list string :=
  ["PENDING"; "RUNNING"; "SUCCESS"; "FAILED"; "CANCELLED"; "RETRY"].

Definition terminal_states : list string :=
  ["SUCCESS"; "FAILED"; "CANCELLED"].

Definition mem (s : string) (l : list string) : bool :=
  existsb (String.eqb s) l.

(** A payload field the summaries read a number from is harmless when it is
    absent, [null], or a finite number that is not negative. *)
Definition harmless (v : value) : bool :=
  match v with
  | VUndefined | VNull => true
  | VNum x => finite_nonneg x
  | _ => false
  end.

(** ** The analytics aggregator *)

Module Aggregator.

(** Modelled from the spec: the aggregator that computes the salary summary
    on the server is not among the sources.  The specification asks for the
    sorted salary sequence; insertion sort gives it. *)
Fixpoint insert (x : Z) (l : list Z) : list Z :=
  match l with
  | [] => [x]
  | y :: l' => if x <=? y then x :: l else y :: insert x l'
  end.

Fixpoint sort (l : list Z) : list Z :=
  match l with
  | [] => []
  | x :: l' => insert x (sort l')
  end.

(** Modelled from the spec: the rank formula of the aggregator, which is not
    among the sources, is rank = ceil(p/100 * n). *)
Definition rank (p n : nat) : nat := ((p * n + 99) / 100)%nat.

(** Modelled from the spec: the percentile of the aggregator, which is not
    among the sources, is the element of the sorted salary sequence at the
    rank, the ranks counted from 1 (nearest-rank method, no interpolation).
    An empty sequence has no percentile. *)
Definition percentile (p : nat) (salaries : list Z) : option Z :=
  match rank p (List.length salaries) with
  | O => None
  | S i => nth_error (sort salaries) i
  end.

Record summary : Type := {
  p50 : option Z;
  p75 : option Z;
  p90 : option Z;
  n : nat
}.

(** Modelled from the spec: [salarySummary(filter?) -> {p50, p75, p90, n}]
    of the aggregator, which is not among the sources, over the salaries of
    the committed records. *)
Definition salarySummary (salaries : list Z) : summary :=
  {| p50 := percentile 50 salaries;
     p75 := percentile 75 salaries;
     p90 := percentile 90 salaries;
     n := List.length salaries |}.

Inductive sorted : list Z -> Prop :=
| sorted_nil : sorted []
| sorted_one (x : Z) : sorted [x]
| sorted_cons (x y : Z) (l : list Z) : x <= y -> sorted (y :: l) -> sorted (x :: y :: l).

End Aggregator.

(** ** The entry a key ends up with

    [last_entry k es] is the value of the last entry of [es] under the key
    [k]: the value [Object.fromEntries(es)] holds at [k]. *)
Fixpoint last_entry (k : string) (es : list (string * value)) : option value :=
  match es with
  | [] => None
  | (k', v) :: es' =>
      match last_entry k es' with
      | Some w => Some w
      | None => if (k =? k')%string then Some v else None
      end
  end.

(** What the clamp gives for a number that is not NaN. *)
Definition clamped_to (p : number) (k : Z) : Prop :=
  match p with
  | Fin q => k = Z.max 0 (Z.min 100 (round_half_up q))
  | PInf => k = 100
  | NInf => k = 0
  | NaN => False
  end.

(** ** The payload of an error, as the specification words it

    The payload carries the body of the response: the JSON value the body
    parses to, or the body as text. *)
Definition carries_body (res : Response) (payload : value) : Prop :=
  body_json res = Some payload \/ payload = VStr (body_text res).

(** ** Sample responses *)

Module Sample.

(** A runtime to evaluate the module with.  [Number] is right on the one
    string the samples convert and on the string of an object, the samples
    make no string of a number, and [JSON.stringify] only contributes to the
    message of an error. *)
Definition StringToNumber (s : string) : number :=
  if (s =? "50")%string then Fin 50 else NaN.
Definition NumberToString (x : number) : string := "".
Definition JSON_stringify (v : value) : string := "".

(** [String.prototype.toUpperCase] on a string of ASCII characters, as the
    states of the samples are. *)
Fixpoint toUpperCase (s : string) : string :=
  match s with
  | EmptyString => EmptyString
  | String c t => String (upper_char c) (toUpperCase t)
  end.

(** A name or a string of a JSON text, between its quotes. *)
Definition quoted (s : string) : string :=
  String "034"%char (s ++ String "034"%char "").

Definition json_response (text : string) (v : value) : Response :=
  {| status := 200; statusText := "OK";
     content_type := Some "application/json";
     body_text := text;
     body_json := Some v |}.

(** The task status of the module's test suite. *)
Definition started_payload : value :=
  VObj [("task_id", VStr "t-1");
        ("status", VStr "started");
        ("meta", VObj [("percent", VNum (Fin 105));
                       ("processed", VNum (Fin 5));
                       ("total", VNum (Fin 10))]);
        ("ready", VBool false);
        ("successful", VBool false)].

Definition started_response : Response :=
  json_response
    ("{" ++ quoted "task_id" ++ ":" ++ quoted "t-1" ++ "," ++
     quoted "status" ++ ":" ++ quoted "started" ++ "," ++
     quoted "meta" ++ ":{" ++ quoted "percent" ++ ":105," ++
     quoted "processed" ++ ":5," ++ quoted "total" ++ ":10}," ++
     quoted "ready" ++ ":false," ++ quoted "successful" ++ ":false}")
    started_payload.

Definition started_result : TaskStatusResp :=
  {| ts_id := VStr "t-1";
     ts_state := "STARTED";
     ts_meta := Some [("percent", VNum (Fin 100));
                      ("processed", VNum (Fin 5));
                      ("total", VNum (Fin 10))];
     ts_ready := false;
     ts_successful := false;
     ts_result := VUndefined |}.

(** A pending task whose flags are set. *)
Definition flagged_payload : value :=
  VObj [("task_id", VStr "t-2");
        ("state", VStr "PENDING");
        ("ready", VBool true);
        ("successful", VBool true)].

Definition flagged_response : Response :=
  json_response
    ("{" ++ quoted "task_id" ++ ":" ++ quoted "t-2" ++ "," ++
     quoted "state" ++ ":" ++ quoted "PENDING" ++ "," ++
     quoted "ready" ++ ":true," ++ quoted "successful" ++ ":true}")
    flagged_payload.

Definition flagged_result : TaskStatusResp :=
  {| ts_id := VStr "t-2";
     ts_state := "PENDING";
     ts_meta := None;
     ts_ready := true;
     ts_successful := true;
     ts_result := VUndefined |}.

(** The answer to a mapping, of the module's test suite. *)
Definition task1_payload : value := VObj [("task_id", VStr "task-1")].

Definition task1_response : Response :=
  json_response ("{" ++ quoted "task_id" ++ ":" ++ quoted "task-1" ++ "}")
                task1_payload.

(** Salary summaries: wrapped in [data] and flat (both of the test suite),
    and one with a negative median. *)
Definition summary_fields : object :=
  [("median", VNum (Fin 50)); ("p75", VNum (Fin 70));
   ("p90", VNum (Fin 90)); ("count", VNum (Fin 10))].

Definition summary_text : string :=
  "{" ++ quoted "median" ++ ":50," ++ quoted "p75" ++ ":70," ++
  quoted "p90" ++ ":90," ++ quoted "count" ++ ":10}".

Definition flat_response : Response :=
  json_response summary_text (VObj summary_fields).

Definition wrapped_response : Response :=
  json_response ("{" ++ quoted "data" ++ ":" ++ summary_text ++ "}")
                (VObj [("data", VObj summary_fields)]).

Definition negative_payload : value :=
  VObj [("p50", VNum (Fin (-42 # 1))); ("p75", VNum (Fin 60));
        ("p90", VNum (Fin 80)); ("n", VNum (Fin 7))].

Definition negative_response : Response :=
  json_response
    ("{" ++ quoted "p50" ++ ":-42," ++ quoted "p75" ++ ":60," ++
     quoted "p90" ++ ":80," ++ quoted "n" ++ ":7}")
    negative_payload.

(** Two failed responses: a text body (of the test suite), and a body that
    is announced as JSON and is not. *)
Definition text_error_response : Response :=
  {| status := 500; statusText := "Internal Server Error";
     content_type := Some "text/plain";
     body_text := "boom";
     body_json := None |}.

Definition broken_json_response : Response :=
  {| status := 500; statusText := "Internal Server Error";
     content_type := Some "application/json";
     body_text := "boom";
     body_json := None |}.

(** A successful response whose body is [[null]]. *)
Definition null_row_response : Response :=
  json_response "[null]" (VArr [VNull]).

(** The answer to an upload, of the module's test suite. *)
Definition upload_payload : value := VObj [("file_id", VStr "file-123")].

Definition upload_response : Response :=
  json_response ("{" ++ quoted "file_id" ++ ":" ++ quoted "file-123" ++ "}")
                upload_payload.

(** The answer to a mapping, spelled in camel case. *)
Definition snake_to_camel (k : string) : string :=
  if (k =? "task_id")%string then "taskId" else k.

Definition task1_camel_response : Response :=
  json_response ("{" ++ quoted "taskId" ++ ":" ++ quoted "task-1" ++ "}")
                (VObj [("taskId", VStr "task-1")]).

(** A successful response whose body is a page, not JSON. *)
Definition page_response : Response :=
  {| status := 200; statusText := "OK";
     content_type := Some "text/html";
     body_text := "<html></html>";
     body_json := None |}.

(** The refusal of an upload, of the module's test suite. *)
Definition detail_fields : object := [("detail", VStr "invalid file")].

Definition detail_error_response : Response :=
  {| status := 400; statusText := "Bad Request";
     content_type := Some "application/json";
     body_text := "{" ++ quoted "detail" ++ ":" ++ quoted "invalid file" ++ "}";
     body_json := Some (VObj detail_fields) |}.

(** A task status whose state is a number. *)
Definition numeric_state_payload : value := VObj [("state", VNum (Fin 5))].

Definition numeric_state_response : Response :=
  json_response ("{" ++ quoted "state" ++ ":5}") numeric_state_payload.

(** A summary whose [data] is empty, beside a [p50]. *)
Definition shadowed_summary : object :=
  [("data", VObj []); ("p50", VNum (Fin 2))].

Definition shadowed_response : Response :=
  json_response ("{" ++ quoted "data" ++ ":{}," ++ quoted "p50" ++ ":2}")
                (VObj shadowed_summary).

Definition empty_data_response : Response :=
  json_response ("{" ++ quoted "data" ++ ":{}}") (VObj [("data", VObj [])]).

(** A successful response whose body is [null]. *)
Definition null_response : Response := json_response "null" VNull.

(** A [p50] that is a string beside a [median] that is a number, as a
    summary and as the only row of a comparison. *)
Definition mixed_fields : object :=
  [("p50", VStr "50"); ("median", VNum (Fin 45))].

Definition mixed_text : string :=
  "{" ++ quoted "p50" ++ ":" ++ quoted "50" ++ "," ++ quoted "median" ++ ":45}".

Definition mixed_summary_response : Response :=
  json_response mixed_text (VObj mixed_fields).

Definition mixed_rows_response : Response :=
  json_response ("[" ++ mixed_text ++ "]") (VArr [VObj mixed_fields]).

(** The comparison of the module's test suite. *)
Definition rows_items : list value :=
  [VObj [("stack", VStr "react"); ("p50", VNum (Fin 50)); ("n", VNum (Fin 10))];
   VObj [("tech", VStr "vue"); ("median", VNum (Fin 45)); ("count", VNum (Fin 8))]].

Definition rows_response : Response :=
  json_response
    ("{" ++ quoted "data" ++ ":[{" ++
     quoted "stack" ++ ":" ++ quoted "react" ++ "," ++
     quoted "p50" ++ ":50," ++ quoted "n" ++ ":10},{" ++
     quoted "tech" ++ ":" ++ quoted "vue" ++ "," ++
     quoted "median" ++ ":45," ++ quoted "count" ++ ":8}]}")
    (VObj [("data", VArr rows_items)]).

(** A payload with a key that is an array index and a key that is turned
    into it. *)
Definition index_payload : value := VObj [("_1", VStr "a"); ("1", VStr "b")].

(** A summary whose [p75] is an object with a [toString] property. *)
Definition unconvertible_payload : value :=
  VObj [("p75", VObj [("toString", VNum (Fin 0))])].

Definition unconvertible_response : Response :=
  json_response ("{" ++ quoted "p75" ++ ":{" ++ quoted "toString" ++ ":0}}")
                unconvertible_payload.

End Sample.

(** ** More of the module's vocabulary *)

(** Whether [/[_-](\w)/] matches somewhere in the name. *)
Fixpoint has_match (s : string) : bool :=
  match s with
  | EmptyString => false
  | String c t =>
      match t with
      | String d _ => (is_sep c && is_word d) || has_match t
      | EmptyString => false
      end
  end.

(** The names [toCamel] turns into [fileId]. *)
Definition fileId_names : list string :=
  ["fileId"; "file_id"; "file-id"; "file_Id"; "file-Id"].

(** A payload with its keys spelled otherwise. *)
Definition rename_keys (f : string -> string) (fields : object) : object :=
  map (fun kv => (f (fst kv), snd kv)) fields.

(** The summary whose four fields are 0. *)
Definition zero_summary : SalarySummary :=
  {| sum_p50 := num_of_Z 0; sum_p75 := num_of_Z 0;
     sum_p90 := num_of_Z 0; sum_n := num_of_Z 0 |}.

(** The prefix of the message of an [ApiError]: [[status] statusText]. *)
Definition message_head (res : Response) : string :=
  "[" ++ nat_to_string (status res) ++ "] " ++ statusText res.

(** [detail ? ` - ${detail}` : ''] *)
Definition message_tail (detail : string) : string :=
  if (detail =? "")%string then "" else " - " ++ detail.

(** The name a row is given: [stack] when it is a string, else [tech] when
    it is a string, else a dash. *)
Definition row_stack_rule (item : value) : string :=
  match get item "stack", get item "tech" with
  | VStr s, _ => s
  | _, VStr s => s
  | _, _ => "-"
  end.

(** The number a row is given from a field and its alias, over [Number] of
    the runtime: the field when it is a number, else the alias when it is a
    number, else the conversion of the first of the two that is there, 0
    when none is. *)
Definition row_number_rule (Number : value -> promise number) (a b : value)
    (x : number) : Prop :=
  match a, b with
  | VNum u, _ => x = u
  | _, VNum v => x = v
  | _, _ => Number (a ?? b ?? VNum (num_of_Z 0)) = Fulfilled x
  end.

(** ** Values that have no string

    [String] and [Number] find no conversion for a parsed object that has a
    property named [toString], and for an array that holds one. *)
Fixpoint unconvertible (v : value) : bool :=
  match v with
  | VObj fields => has_key "toString" fields
  | VArr items => existsb (fun x => negb (nullish x) && unconvertible x) items
  | _ => false
  end.

(** Whether a row makes the callback of [stackCompare] throw: the row is
    [null], or a number has to be made of a field, none of it and its alias
    being one, and the field has no string. *)
Definition pair_throws (a b : value) : bool :=
  negb (is_number a) && negb (is_number b) &&
  unconvertible (a ?? b ?? VNum (num_of_Z 0)).

Definition row_throws (item : value) : bool :=
  nullish item ||
  pair_throws (get item "p50") (get item "median") ||
  pair_throws (get item "n") (get item "count").

(** Induction on a value, through the elements of its arrays. *)
Section ValueInduction.

Variable P : value -> Prop.
Hypothesis P_undefined : P VUndefined.
Hypothesis P_null : P VNull.
Hypothesis P_bool : forall b, P (VBool b).
Hypothesis P_num : forall n, P (VNum n).
Hypothesis P_str : forall s, P (VStr s).
Hypothesis P_arr : forall items, Forall P items -> P (VArr items).
Hypothesis P_obj : forall fields, P (VObj fields).

Fixpoint value_nested_ind (v : value) : P v :=
  match v with
  | VUndefined => P_undefined
  | VNull => P_null
  | VBool b => P_bool b
  | VNum n => P_num n
  | VStr s => P_str s
  | VArr items =>
      P_arr items
        ((fix all (l : list value) : Forall P l :=
            match l with
            | [] => Forall_nil P
            | x :: l' => Forall_cons x (value_nested_ind x) (all l')
            end) items)
  | VObj fields => P_obj fields
  end.

End ValueInduction.

(** * Properties *)

(** ** Characters and [toCamel] *)

Ltac each_ascii c :=
  destruct c as [[] [] [] [] [] [] [] []]; vm_compute; try reflexivity; try discriminate; auto.

Lemma upper_word_not_lower (d : ascii) :
  is_word d = true -> is_lower (upper_char d) = false.
Proof. each_ascii d. Qed.

Lemma lower_not_sep (c : ascii) : is_lower c = true -> is_sep c = false.
Proof. each_ascii c. Qed.

Lemma is_sep_inv (c : ascii) : is_sep c = true -> c = "_"%char \/ c = "-"%char.
Proof. each_ascii c. Qed.

Lemma upper_char_I_inv (d : ascii) :
  upper_char d = "I"%char -> d = "i"%char \/ d = "I"%char.
Proof. each_ascii d. Qed.

Lemma toCamel_cons2 (c d : ascii) (rest : string) :
  toCamel (String c (String d rest)) =
  if is_sep c && is_word d
  then String (upper_char d) (toCamel rest)
  else String c (toCamel (String d rest)).
Proof. reflexivity. Qed.

(** The first character of a camel-cased name is either the first character
    of the name, or the upper-cased letter that followed a separator. *)
Lemma toCamel_head_inv (s : string) (a : ascii) (out : string) :
  toCamel s = String a out ->
  (exists t, s = String a t /\ toCamel t = out) \/
  (exists c d rest, s = String c (String d rest) /\ is_sep c = true /\
                    is_word d = true /\ upper_char d = a /\ toCamel rest = out).
Proof.
  destruct s as [|c [|d rest]].
  - discriminate.
  - simpl. intros H. injection H as <- <-. left. exists EmptyString. auto.
  - rewrite toCamel_cons2.
    destruct (is_sep c) eqn:Hs, (is_word d) eqn:Hw; simpl; intros H;
      injection H as <- <-;
      try (left; eexists; split; reflexivity).
    right. exists c, d, rest. auto.
Qed.

Lemma toCamel_head_lower (s : string) (a : ascii) (out : string) :
  is_lower a = true ->
  toCamel s = String a out ->
  exists t, s = String a t /\ toCamel t = out.
Proof.
  intros Ha H. apply toCamel_head_inv in H.
  destruct H as [H | (c & d & rest & _ & _ & Hw & Hu & _)]; [exact H|].
  apply upper_word_not_lower in Hw. congruence.
Qed.

Lemma toCamel_lower_id (s : string) :
  all_lower (toCamel s) = true -> toCamel s = s.
Proof.
  remember (String.length s) as k eqn:Hk.
  revert s Hk. induction k as [k IH] using lt_wf_ind. intros s Hk Hl.
  destruct (toCamel s) as [|a out] eqn:E.
  - destruct s as [|c [|d rest]]; [reflexivity|discriminate|].
    rewrite toCamel_cons2 in E. destruct (is_sep c && is_word d); discriminate.
  - simpl in Hl. apply andb_true_iff in Hl. destruct Hl as [Ha Hout].
    destruct (toCamel_head_lower s a out Ha E) as (t & -> & Ht).
    f_equal. rewrite <- Ht. apply (IH (String.length t)).
    + subst k. simpl. apply Nat.lt_succ_diag_r.
    + reflexivity.
    + rewrite Ht. exact Hout.
Qed.

Lemma toCamel_all_lower (s : string) : all_lower s = true -> toCamel s = s.
Proof.
  induction s as [|c t IH]; [reflexivity|].
  simpl all_lower. intros H. apply andb_true_iff in H. destruct H as [Hc Ht].
  destruct t as [|d rest]; [reflexivity|].
  rewrite toCamel_cons2, (lower_not_sep c Hc). cbn [andb]. now rewrite (IH Ht).
Qed.

(** No other name is camel-cased into a plain one. *)
Lemma toCamel_plain_iff (k k' : string) :
  plain k = true -> (toCamel k' = k <-> k' = k).
Proof.
  unfold plain. intros H. apply andb_true_iff in H. destruct H as [_ Hl].
  split.
  - intros E. rewrite <- E. symmetry. apply toCamel_lower_id. now rewrite E.
  - intros ->. now apply toCamel_all_lower.
Qed.

Lemma toCamel_plain_eqb (k k' : string) :
  plain k = true -> (k =? toCamel k')%string = (k =? k')%string.
Proof.
  intros H.
  destruct (String.eqb_spec k k') as [->|Hne].
  - apply String.eqb_eq. symmetry. now apply toCamel_plain_iff.
  - apply String.eqb_neq. intros E. apply Hne. symmetry.
    apply (toCamel_plain_iff k k' H). now symmetry.
Qed.

(** The names that are camel-cased into [taskId]. *)
Lemma toCamel_taskId (k : string) :
  toCamel k = "taskId" <-> In k taskId_names.
Proof.
  split.
  - intros H.
    apply toCamel_head_lower in H; [|reflexivity]. destruct H as (t1 & -> & H).
    apply toCamel_head_lower in H; [|reflexivity]. destruct H as (t2 & -> & H).
    apply toCamel_head_lower in H; [|reflexivity]. destruct H as (t3 & -> & H).
    apply toCamel_head_lower in H; [|reflexivity]. destruct H as (t4 & -> & H).
    apply toCamel_head_inv in H.
    destruct H as [(t & -> & H) | (c & d & rest & -> & Hs & _ & Hu & H)].
    + apply (toCamel_plain_iff "d" t eq_refl) in H. subst t. simpl. auto.
    + apply (toCamel_plain_iff "d" rest eq_refl) in H. subst rest.
      apply is_sep_inv in Hs. apply upper_char_I_inv in Hu.
      destruct Hs as [-> | ->], Hu as [-> | ->]; simpl; auto 6.
  - simpl. intros [<-|[<-|[<-|[<-|[<-|[]]]]]]; reflexivity.
Qed.

(** A decimal numeral is not a plain name. *)
Lemma numeral_not_plain (i : nat) (k : string) :
  plain k = true -> nat_to_string i <> k.
Proof.
  unfold nat_to_string. intros Hk E. subst k.
  destruct (Nat.to_uint i); simpl in Hk; discriminate.
Qed.

(** ** Objects *)

Lemma lookup_set_prop (k k' : string) (v : value) (o : object) :
  lookup k (set_prop k' v o) = if (k =? k')%string then v else lookup k o.
Proof.
  induction o as [|[k1 v1] o IH]; simpl.
  - reflexivity.
  - destruct (String.eqb_spec k' k1) as [->|Hne]; simpl.
    + destruct (k =? k1)%string; reflexivity.
    + rewrite IH. destruct (String.eqb_spec k k') as [->|Hne'].
      * apply String.eqb_neq in Hne. now rewrite Hne.
      * reflexivity.
Qed.

Lemma lookup_absent (k : string) (o : object) :
  has_key k o = false -> lookup k o = VUndefined.
Proof.
  induction o as [|[k1 v1] o IH]; simpl; [reflexivity|].
  destruct (k =? k1)%string; simpl; [discriminate|exact IH].
Qed.

Lemma lookup_fold (k : string) (es : list (string * value)) (o : object) :
  lookup k (fold_left (fun o kv => set_prop (fst kv) (snd kv) o) es o) =
  match last_entry k es with
  | Some v => v
  | None => lookup k o
  end.
Proof.
  revert o. induction es as [|[k1 v1] es IH]; intros o; simpl; [reflexivity|].
  rewrite IH. destruct (last_entry k es); [reflexivity|].
  rewrite lookup_set_prop. now destruct (k =? k1)%string.
Qed.

Lemma lookup_fromEntries (k : string) (es : list (string * value)) :
  lookup k (fromEntries es) =
  match last_entry k es with Some v => v | None => VUndefined end.
Proof. unfold fromEntries. now rewrite lookup_fold. Qed.

Lemma last_entry_In (k : string) (es : list (string * value)) (v : value) :
  last_entry k es = Some v -> In (k, v) es.
Proof.
  induction es as [|[k1 v1] es IH]; simpl; [discriminate|].
  destruct (last_entry k es) as [w|].
  - intros H. right. now apply IH.
  - destruct (String.eqb_spec k k1) as [->|]; [|discriminate].
    intros H. injection H as ->. now left.
Qed.

Lemma last_entry_absent (k : string) (es : list (string * value)) :
  has_key k es = false -> last_entry k es = None.
Proof.
  induction es as [|[k1 v1] es IH]; simpl; [reflexivity|].
  intros H. apply orb_false_iff in H. destruct H as [H1 H2].
  now rewrite (IH H2), H1.
Qed.

Lemma has_key_In (k : string) (v : value) (o : object) :
  In (k, v) o -> has_key k o = true.
Proof.
  induction o as [|[k1 v1] o IH]; simpl; [tauto|].
  intros [H|H].
  - injection H as -> ->. now rewrite String.eqb_refl.
  - rewrite (IH H). apply orb_true_r.
Qed.

Lemma lookup_In_distinct (k : string) (v : value) (o : object) :
  distinct_keys o = true -> In (k, v) o -> lookup k o = v.
Proof.
  induction o as [|[k1 v1] o IH]; simpl; [tauto|].
  intros Hd [H|H]; apply andb_true_iff in Hd; destruct Hd as [Hk Hd].
  - injection H as -> ->. now rewrite String.eqb_refl.
  - destruct (String.eqb_spec k k1) as [->|]; [|now apply IH].
    apply has_key_In in H. rewrite H in Hk. discriminate.
Qed.

Lemma last_entry_distinct (k : string) (o : object) :
  distinct_keys o = true ->
  last_entry k o = if has_key k o then Some (lookup k o) else None.
Proof.
  induction o as [|[k1 v1] o IH]; simpl; [reflexivity|].
  intros Hd. apply andb_true_iff in Hd. destruct Hd as [Hk Hd].
  rewrite (IH Hd).
  destruct (String.eqb_spec k k1) as [->|]; simpl.
  - apply negb_true_iff in Hk. now rewrite Hk.
  - now destruct (has_key k o).
Qed.

(** Camel-casing the keys does not move the entry of a key [k] when [k] is
    the only name of the object that is camel-cased into [K]. *)
Lemma last_entry_camel (K k : string) (es : list (string * value)) :
  toCamel k = K ->
  (forall k', has_key k' es = true -> toCamel k' = K -> k' = k) ->
  last_entry K (map (fun kv => (toCamel (fst kv), snd kv)) es) = last_entry k es.
Proof.
  intros Hk. induction es as [|[k1 v1] es IH]; simpl; [reflexivity|].
  intros Hu. rewrite IH.
  - destruct (last_entry k es); [reflexivity|].
    destruct (String.eqb_spec k k1) as [<-|Hne].
    + rewrite Hk. now rewrite String.eqb_refl.
    + destruct (String.eqb_spec K (toCamel k1)) as [E|]; [|reflexivity].
      exfalso. apply Hne. symmetry. apply Hu; [|now symmetry].
      now rewrite String.eqb_refl.
  - intros k' H1 H2. apply Hu; [|exact H2]. rewrite H1. apply orb_true_r.
Qed.

Lemma last_entry_camel_plain (k : string) (es : list (string * value)) :
  plain k = true ->
  last_entry k (map (fun kv => (toCamel (fst kv), snd kv)) es) = last_entry k es.
Proof.
  intros Hp. apply last_entry_camel.
  - now apply toCamel_plain_iff.
  - intros k' _ H. now apply (toCamel_plain_iff k k' Hp).
Qed.

Lemma has_key_indexed (k : string) (l : list value) (i : nat) :
  (forall j, nat_to_string j <> k) -> has_key k (indexed_from i l) = false.
Proof.
  intros Hk. revert i. induction l as [|x l IH]; intros i; simpl; [reflexivity|].
  rewrite IH. destruct (String.eqb_spec k (nat_to_string i)) as [E|]; [|reflexivity].
  exfalso. now apply (Hk i).
Qed.

Lemma last_entry_app (k : string) (a b : list (string * value)) :
  last_entry k (a ++ b) =
  match last_entry k b with
  | Some w => Some w
  | None => last_entry k a
  end.
Proof.
  induction a as [|[k1 v1] a IH]; simpl.
  - now destruct (last_entry k b).
  - rewrite IH. now destruct (last_entry k b).
Qed.

(** ** The order of enumeration *)

Lemma insert_indexed_perm (e : string * value) (l : object) :
  Permutation (e :: l) (insert_indexed e l).
Proof.
  induction l as [|e' l IH]; simpl; [apply Permutation_refl|].
  destruct (index_leb e e'); [apply Permutation_refl|].
  eapply perm_trans; [apply perm_swap|]. now apply perm_skip.
Qed.

Lemma sort_indexed_perm (l : object) : Permutation l (sort_indexed l).
Proof.
  induction l as [|e l IH]; simpl; [apply perm_nil|].
  eapply perm_trans; [apply perm_skip, IH|apply insert_indexed_perm].
Qed.

Lemma filter_split_perm {A : Type} (f : A -> bool) (l : list A) :
  Permutation l (filter f l ++ filter (fun x => negb (f x)) l).
Proof.
  induction l as [|x l IH]; simpl; [apply perm_nil|].
  destruct (f x); simpl.
  - now apply perm_skip.
  - now apply Permutation_cons_app.
Qed.

(** The enumeration lists the properties of the object, each once. *)
Lemma own_properties_perm (fields : object) :
  Permutation fields (own_properties fields).
Proof.
  unfold own_properties.
  eapply perm_trans; [apply (filter_split_perm (fun kv => is_index (fst kv)))|].
  apply Permutation_app_tail, sort_indexed_perm.
Qed.

Lemma has_key_spec (k : string) (o : object) :
  has_key k o = true <-> exists v, In (k, v) o.
Proof.
  split.
  - induction o as [|[k1 v1] o IH]; simpl; [discriminate|].
    destruct (String.eqb_spec k k1) as [->|]; simpl.
    + intros _. exists v1. now left.
    + intros H. destruct (IH H) as [v Hv]. exists v. now right.
  - intros [v Hv]. now apply (has_key_In k v).
Qed.

Lemma has_key_perm (k : string) (o o' : object) :
  Permutation o o' -> has_key k o = has_key k o'.
Proof.
  intros Hp.
  destruct (has_key k o) eqn:E.
  - symmetry. apply has_key_spec. apply has_key_spec in E.
    destruct E as [v Hv]. exists v. now apply (Permutation_in _ Hp).
  - destruct (has_key k o') eqn:E'; [|reflexivity].
    apply has_key_spec in E'. destruct E' as [v Hv].
    apply (Permutation_in _ (Permutation_sym Hp)) in Hv.
    rewrite (has_key_In k v o Hv) in E. discriminate.
Qed.

Lemma distinct_keys_NoDup (o : object) :
  distinct_keys o = true <-> NoDup (map fst o).
Proof.
  induction o as [|[k v] o IH]; simpl.
  - split; [constructor|reflexivity].
  - rewrite andb_true_iff, negb_true_iff, IH. split.
    + intros [Hk Hd]. constructor; [|exact Hd].
      intros Hin. apply in_map_iff in Hin. destruct Hin as ([k' v'] & E & Hin).
      simpl in E. subst k'. now rewrite (has_key_In k v' o Hin) in Hk.
    + intros H. inversion H as [|? ? Hn Hd]. subst. split; [|exact Hd].
      destruct (has_key k o) eqn:E; [|reflexivity].
      apply has_key_spec in E. destruct E as [v' Hv']. destruct Hn.
      apply in_map_iff. now exists (k, v').
Qed.

Lemma distinct_keys_perm (o o' : object) :
  Permutation o o' -> distinct_keys o = true -> distinct_keys o' = true.
Proof.
  intros Hp Hd. apply distinct_keys_NoDup. apply distinct_keys_NoDup in Hd.
  apply (Permutation_NoDup (Permutation_map fst Hp) Hd).
Qed.

Lemma lookup_In (k : string) (o : object) :
  has_key k o = true -> In (k, lookup k o) o.
Proof.
  induction o as [|[k1 v1] o IH]; simpl; [discriminate|].
  destruct (String.eqb_spec k k1) as [->|]; simpl; [now left|].
  intros H. right. now apply IH.
Qed.

Lemma lookup_perm (k : string) (o o' : object) :
  Permutation o o' -> distinct_keys o = true -> lookup k o' = lookup k o.
Proof.
  intros Hp Hd.
  destruct (has_key k o) eqn:E.
  - apply lookup_In_distinct.
    + now apply (distinct_keys_perm o o').
    + apply (Permutation_in _ Hp). now apply lookup_In.
  - rewrite (lookup_absent k o E). apply lookup_absent.
    now rewrite <- (has_key_perm k o o' Hp).
Qed.

Lemma has_key_own_properties (k : string) (fields : object) :
  has_key k (own_properties fields) = has_key k fields.
Proof. symmetry. apply has_key_perm, own_properties_perm. Qed.

Lemma lookup_own_properties (k : string) (fields : object) :
  distinct_keys fields = true ->
  lookup k (own_properties fields) = lookup k fields.
Proof. apply lookup_perm, own_properties_perm. Qed.

Lemma distinct_own_properties (fields : object) :
  distinct_keys fields = true -> distinct_keys (own_properties fields) = true.
Proof. apply distinct_keys_perm, own_properties_perm. Qed.

Lemma In_own_properties (e : string * value) (fields : object) :
  In e (own_properties fields) <-> In e fields.
Proof.
  split.
  - apply Permutation_in, Permutation_sym, own_properties_perm.
  - apply Permutation_in, own_properties_perm.
Qed.

Lemma length_own_properties (fields : object) :
  List.length (own_properties fields) = List.length fields.
Proof. symmetry. apply Permutation_length, own_properties_perm. Qed.

(** The name of an array index holds digits only, so [toCamel] leaves it as
    it is, and it is no plain name. *)
Lemma digit_not_sep (c : ascii) : is_digit c = true -> is_sep c = false.
Proof. each_ascii c. Qed.

Lemma digit_not_lower (c : ascii) : is_digit c = true -> is_lower c = false.
Proof. each_ascii c. Qed.

Lemma toCamel_digits (acc : N) (s : string) (i : N) :
  digits_value acc s = Some i -> toCamel s = s.
Proof.
  revert acc. induction s as [|c t IH]; intros acc; [reflexivity|].
  simpl digits_value. destruct (is_digit c) eqn:Hc; [|discriminate].
  intros H. destruct t as [|d rest]; [reflexivity|].
  rewrite toCamel_cons2, (digit_not_sep c Hc). cbn [andb].
  now rewrite (IH _ H).
Qed.

Lemma toCamel_index (k : string) : is_index k = true -> toCamel k = k.
Proof.
  unfold is_index, array_index. destruct k as [|c t]; [discriminate|].
  destruct (Nat.eqb (code c) 48 && negb (t =? "")%string); [discriminate|].
  destruct (digits_value 0 (String c t)) as [i|] eqn:E; [|discriminate].
  intros _. now apply (toCamel_digits 0 _ i).
Qed.

Lemma plain_not_index (k : string) : plain k = true -> is_index k = false.
Proof.
  unfold plain, is_index, array_index. destruct k as [|c t]; [discriminate|].
  simpl. intros H. apply andb_true_iff in H. destruct H as [Hc _].
  destruct (Nat.eqb (code c) 48 && negb (t =? "")%string); [reflexivity|].
  destruct (is_digit c) eqn:Hd; [|reflexivity].
  now rewrite (digit_not_lower c Hd) in Hc.
Qed.

(** A name that is no array index is looked for among the camel-cased
    properties in the order of the payload: the indices, which are
    enumerated first, are none of its spellings. *)
Lemma last_entry_camel_own (K : string) (fields : object) :
  is_index K = false ->
  last_entry K (map (fun kv => (toCamel (fst kv), snd kv)) (own_properties fields)) =
  last_entry K (map (fun kv => (toCamel (fst kv), snd kv)) fields).
Proof.
  intros HK. unfold own_properties. rewrite map_app, last_entry_app.
  assert (Hrest :
    last_entry K (map (fun kv => (toCamel (fst kv), snd kv))
                      (filter (fun kv => negb (is_index (fst kv))) fields)) =
    last_entry K (map (fun kv => (toCamel (fst kv), snd kv)) fields)).
  { induction fields as [|[k v] fs IH]; [reflexivity|].
    cbn [filter map fst snd last_entry].
    destruct (is_index k) eqn:Hk; cbn [negb map fst snd last_entry].
    - rewrite IH.
      destruct (last_entry K (map (fun kv => (toCamel (fst kv), snd kv)) fs));
        [reflexivity|].
      rewrite (toCamel_index k Hk).
      destruct (String.eqb_spec K k) as [->|]; [congruence|reflexivity].
    - now rewrite IH. }
  rewrite Hrest.
  destruct (last_entry K (map _ fields)); [reflexivity|].
  apply last_entry_absent.
  destruct (has_key K (map (fun kv => (toCamel (fst kv), snd kv))
              (sort_indexed (filter (fun kv => is_index (fst kv)) fields)))) eqn:E;
    [|reflexivity].
  apply has_key_spec in E. destruct E as [v Hv].
  apply in_map_iff in Hv. destruct Hv as ([k v'] & Heq & Hin).
  simpl in Heq. injection Heq as Hk _.
  apply (Permutation_in _ (Permutation_sym (sort_indexed_perm _))) in Hin.
  apply filter_In in Hin. destruct Hin as [_ Hi]. simpl in Hi.
  rewrite (toCamel_index k Hi) in Hk. congruence.
Qed.

(** The well-formedness [normalizeKeys] relies on: distinct keys. *)
Lemma is_json_distinct (fields : object) :
  is_json (VObj fields) = true -> distinct_keys fields = true.
Proof. simpl. intros H. apply andb_true_iff in H. tauto. Qed.

Lemma is_json_lookup (k : string) (fields : object) :
  is_json (VObj fields) = true ->
  lookup k fields = VUndefined \/ is_json (lookup k fields) = true.
Proof.
  simpl. intros H. apply andb_true_iff in H. destruct H as [_ H].
  induction fields as [|[k1 v1] o IH]; simpl in *; [now left|].
  apply andb_true_iff in H. destruct H as [H1 H2].
  destruct (k =? k1)%string; [now right|now apply IH].
Qed.

(** A plain name is read from the normalized object as from the payload. *)
Lemma lookup_normalizeKeys_plain (k : string) (raw : value) :
  plain k = true -> is_json raw = true ->
  lookup k (normalizeKeys raw) = get raw k.
Proof.
  intros Hp Hj. unfold normalizeKeys.
  rewrite lookup_fromEntries, last_entry_camel_plain by exact Hp.
  assert (Hn : forall j, nat_to_string j <> k)
    by (intros j; now apply numeral_not_plain).
  destruct raw as [| |b|x|s|items|fields]; simpl; try reflexivity.
  - now rewrite last_entry_absent by (now apply has_key_indexed).
  - now rewrite last_entry_absent by (now apply has_key_indexed).
  - pose proof (is_json_distinct fields Hj) as Hd.
    rewrite last_entry_distinct by (now apply distinct_own_properties).
    rewrite has_key_own_properties, (lookup_own_properties k fields Hd).
    destruct (has_key k fields) eqn:E; [reflexivity|].
    symmetry. now apply lookup_absent.
Qed.

Lemma lookup_normalizeKeys_absent (k : string) (raw : value) :
  plain k = true -> has_key k (entries raw) = false ->
  lookup k (normalizeKeys raw) = VUndefined.
Proof.
  intros Hp Hk. unfold normalizeKeys.
  rewrite lookup_fromEntries, last_entry_camel_plain by exact Hp.
  destruct raw; simpl in *; try reflexivity; now rewrite last_entry_absent.
Qed.

(** ** Numbers *)

Lemma Qle_bool_inject_Z (a b : Z) :
  Qle_bool (inject_Z a) (inject_Z b) = (a <=? b)%Z.
Proof. unfold Qle_bool. simpl. now rewrite !Z.mul_1_r. Qed.

Lemma Math_min_Z (a b : Z) :
  Math_min (num_of_Z a) (num_of_Z b) = num_of_Z (Z.min a b).
Proof.
  unfold Math_min, num_of_Z, num_leb. rewrite Qle_bool_inject_Z.
  destruct (Z.leb_spec a b); f_equal; f_equal; lia.
Qed.

Lemma Math_max_Z (a b : Z) :
  Math_max (num_of_Z a) (num_of_Z b) = num_of_Z (Z.max a b).
Proof.
  unfold Math_max, num_of_Z, num_leb. rewrite Qle_bool_inject_Z.
  destruct (Z.leb_spec a b); f_equal; f_equal; lia.
Qed.

Lemma clamp_percent_Fin (q : Q) :
  clamp_percent (Fin q) = num_of_Z (Z.max 0 (Z.min 100 (round_half_up q))).
Proof.
  unfold clamp_percent. simpl Math_round.
  change (Fin (inject_Z (round_half_up q))) with (num_of_Z (round_half_up q)).
  now rewrite Math_min_Z, Math_max_Z.
Qed.

(** [Math.round] gives an integer at distance at most 1/2. *)
Lemma round_half_up_nearest (q : Q) :
  (Qabs (inject_Z (round_half_up q) - q) <= 1 # 2)%Q.
Proof.
  unfold round_half_up.
  pose proof (Qfloor_le (q + (1 # 2))) as Hlo.
  pose proof (Qlt_floor (q + (1 # 2))) as Hhi.
  rewrite inject_Z_plus in Hhi.
  apply Qabs_Qle_condition. split.
  - change (inject_Z 1) with 1%Q in Hhi. lra.
  - lra.
Qed.

Lemma clamp_percent_spec (p : number) :
  p <> NaN ->
  exists k, clamp_percent p = num_of_Z k /\ 0 <= k <= 100 /\ clamped_to p k.
Proof.
  destruct p as [| | |q]; intros Hp.
  - congruence.
  - exists 100. repeat split; lia.
  - exists 0. repeat split; lia.
  - eexists. split; [apply clamp_percent_Fin|]. simpl. split; [lia|reflexivity].
Qed.

(** ** [taskStatus] *)

Lemma lookup_set_same (k : string) (v : value) (o : object) :
  lookup k (set_prop k v o) = v.
Proof. now rewrite lookup_set_prop, String.eqb_refl. Qed.

(** [normalizeTaskStatus] read on the fields of the payload itself. *)
Lemma normalizeTaskStatus_json (toUpperCase : string -> string) (raw : value) :
  is_json raw = true ->
  normalizeTaskStatus toUpperCase raw =
  match get raw "state" ?? get raw "status" ?? VStr "PENDING" with
  | VStr s =>
      Fulfilled {|
        ts_id := lookup "taskId" (normalizeKeys raw) ?? get raw "id" ?? VStr "";
        ts_state := toUpperCase s;
        ts_meta :=
          if ToBoolean (get raw "meta")
          then Some (set_prop "percent"
                       match (if nullish (get raw "meta") then VUndefined
                              else get (get raw "meta") "percent") with
                       | VNum x => VNum (clamp_percent x)
                       | _ => VUndefined
                       end
                       (entries (get raw "meta")))
          else None;
        ts_ready := ToBoolean (get raw "ready");
        ts_successful := ToBoolean (get raw "successful");
        ts_result := get raw "result"
      |}
  | _ => Rejected TypeError
  end.
Proof.
  intros Hj. unfold normalizeTaskStatus. cbv zeta.
  pose proof (fun k H => lookup_normalizeKeys_plain k raw H Hj) as L.
  now rewrite (L "meta"), (L "state"), (L "status"), (L "id"), (L "ready"),
    (L "successful"), (L "result") by reflexivity.
Qed.

Section TaskStatus.

Variable toUpperCase : string -> string.
Variable JSON_stringify : value -> string.

Lemma requestJson_ok (res : Response) (raw : value) :
  ok res = true -> body_json res = Some raw ->
  requestJson JSON_stringify res = Fulfilled raw.
Proof. unfold requestJson. now intros -> ->. Qed.

Lemma requestJson_failed (res : Response) :
  ok res = false ->
  requestJson JSON_stringify res =
  Rejected (ApiError (error_message JSON_stringify res) (status res) (error_payload res)).
Proof. unfold requestJson. now intros ->. Qed.

Lemma taskStatus_ok (res : Response) (raw : value) :
  ok res = true -> body_json res = Some raw ->
  taskStatus toUpperCase JSON_stringify res = normalizeTaskStatus toUpperCase raw.
Proof. intros H1 H2. unfold taskStatus. now rewrite (requestJson_ok res raw H1 H2). Qed.

(** C1, as amended: [taskStatus] returns whenever the payload's [state] (or,
    when that is absent or null, its [status]) is a string or both are
    absent, and the [state] it returns is that string in upper case,
    ['PENDING'] standing for the absent field.  The name is not checked
    against any list. *)
Theorem taskStatus_state_uppercased (res : Response) (raw : value) (s : string) :
  ok res = true -> body_json res = Some raw -> is_json raw = true ->
  get raw "state" ?? get raw "status" ?? VStr "PENDING" = VStr s ->
  exists r, taskStatus toUpperCase JSON_stringify res = Fulfilled r /\ ts_state r = toUpperCase s.
Proof.
  intros Hok Hb Hj Hs.
  rewrite (taskStatus_ok res raw Hok Hb), (normalizeTaskStatus_json toUpperCase raw Hj), Hs.
  eexists. split; reflexivity.
Qed.

(** C2: when [meta.percent] of the payload is a number [p], the [percent] of
    the returned [meta] is [p] rounded to the nearest integer and clamped to
    [0, 100]. *)
Theorem taskStatus_percent_clamped (res : Response) (raw : value) (p : number)
    (r : TaskStatusResp) :
  ok res = true -> body_json res = Some raw -> is_json raw = true ->
  get (get raw "meta") "percent" = VNum p ->
  taskStatus toUpperCase JSON_stringify res = Fulfilled r ->
  exists (m : object) (k : Z),
    ts_meta r = Some m /\
    lookup "percent" m = VNum (num_of_Z k) /\
    0 <= k <= 100 /\
    clamped_to p k /\
    (forall q, p = Fin q -> (Qabs (inject_Z (round_half_up q) - q) <= 1 # 2)%Q).
Proof.
  intros Hok Hb Hj Hp Hr.
  rewrite (taskStatus_ok res raw Hok Hb), (normalizeTaskStatus_json toUpperCase raw Hj) in Hr.
  destruct (get raw "state" ?? get raw "status" ?? VStr "PENDING");
    try discriminate.
  injection Hr as <-. cbn [ts_meta].
  assert (Hnan : p <> NaN).
  { destruct raw as [| | | | | |fields]; try discriminate.
    simpl in Hp. destruct (is_json_lookup "meta" fields Hj) as [E|Hm].
    - rewrite E in Hp. discriminate.
    - destruct (lookup "meta" fields) as [| | | | | |mf]; try discriminate.
      simpl in Hp. destruct (is_json_lookup "percent" mf Hm) as [E|Hq].
      + rewrite E in Hp. discriminate.
      + rewrite Hp in Hq. intros ->. discriminate. }
  destruct (get raw "meta") as [| | | | | |mf] eqn:Em; try discriminate.
  simpl in Hp. cbn [ToBoolean nullish get]. rewrite Hp.
  destruct (clamp_percent_spec p Hnan) as (k & Hk & Hrange & Hspec).
  exists (set_prop "percent" (VNum (clamp_percent p)) (entries (VObj mf))), k.
  split; [reflexivity|]. split; [now rewrite lookup_set_same, Hk|].
  split; [exact Hrange|]. split; [exact Hspec|].
  intros q _. apply round_half_up_nearest.
Qed.

(** C3, as amended: [ready] and [successful] are the truth values of the
    payload's [ready] and [successful] fields, whatever the state is. *)
Theorem taskStatus_flags_copied (res : Response) (raw : value) (r : TaskStatusResp) :
  ok res = true -> body_json res = Some raw -> is_json raw = true ->
  taskStatus toUpperCase JSON_stringify res = Fulfilled r ->
  ts_ready r = ToBoolean (get raw "ready") /\
  ts_successful r = ToBoolean (get raw "successful").
Proof.
  intros Hok Hb Hj Hr.
  rewrite (taskStatus_ok res raw Hok Hb), (normalizeTaskStatus_json toUpperCase raw Hj) in Hr.
  destruct (get raw "state" ?? get raw "status" ?? VStr "PENDING");
    try discriminate.
  injection Hr as <-. split; reflexivity.
Qed.

(** C7: a payload without a [meta] field gives a result whose [meta] is
    [undefined]; and when [meta.percent] of the payload is not a number, the
    returned [meta], if there is one, holds [undefined] at [percent]. *)
Theorem taskStatus_meta_optional (res : Response) (raw : value) (r : TaskStatusResp) :
  ok res = true -> body_json res = Some raw -> is_json raw = true ->
  taskStatus toUpperCase JSON_stringify res = Fulfilled r ->
  (has_key "meta" (entries raw) = false -> ts_meta r = None) /\
  (is_number (get (get raw "meta") "percent") = false ->
   forall m, ts_meta r = Some m -> lookup "percent" m = VUndefined).
Proof.
  intros Hok Hb Hj Hr.
  rewrite (taskStatus_ok res raw Hok Hb), (normalizeTaskStatus_json toUpperCase raw Hj) in Hr.
  destruct (get raw "state" ?? get raw "status" ?? VStr "PENDING");
    try discriminate.
  injection Hr as <-. cbn [ts_meta]. split.
  - intros Hk.
    assert (E : get raw "meta" = VUndefined).
    { rewrite <- (lookup_normalizeKeys_plain "meta" raw eq_refl Hj).
      now apply lookup_normalizeKeys_absent. }
    now rewrite E.
  - intros Hn m Hm.
    destruct (ToBoolean (get raw "meta")); [|discriminate].
    injection Hm as <-. rewrite lookup_set_same.
    destruct (nullish (get raw "meta")); [reflexivity|].
    now destruct (get (get raw "meta") "percent").
Qed.

End TaskStatus.

(** ** [mapColumns] *)

Lemma In_indexed {A : Type} (k : string) (x : A) (l : list A) (i : nat) :
  In (k, x) (indexed_from i l) -> exists j, k = nat_to_string j.
Proof.
  revert i. induction l as [|y l IH]; intros i; simpl; [tauto|].
  intros [H|H]; [injection H as <- _; now exists i|now apply (IH (S i))].
Qed.

Lemma numeral_not_taskId (j : nat) : ~ In (nat_to_string j) taskId_names.
Proof.
  unfold nat_to_string, taskId_names.
  destruct (Nat.to_uint j); simpl; intros H;
    repeat (destruct H as [H|H]; [discriminate|]); exact H.
Qed.

(** A field the module reads belongs to an object: the index of an array
    element or of a character is none of its names. *)
Lemma entry_get (raw : value) (k : string) (v : value) :
  is_json raw = true ->
  (forall j, nat_to_string j <> k) ->
  In (k, v) (entries raw) ->
  get raw k = v.
Proof.
  intros Hj Hk Hin.
  destruct raw as [| |b|x|s|items|fields]; simpl in Hin; try tauto.
  - apply In_indexed in Hin. destruct Hin as [j ->]. now destruct (Hk j).
  - apply In_indexed in Hin. destruct Hin as [j ->]. now destruct (Hk j).
  - simpl. apply (proj1 (In_own_properties _ _)) in Hin.
    apply lookup_In_distinct; [now apply is_json_distinct|exact Hin].
Qed.

(** A value read from the normalized object is the value of a field of the
    payload whose name is camel-cased into the key. *)
Lemma normalized_field_source (K : string) (raw : value) :
  lookup K (normalizeKeys raw) <> VUndefined ->
  exists k, toCamel k = K /\ In (k, lookup K (normalizeKeys raw)) (entries raw).
Proof.
  unfold normalizeKeys. rewrite lookup_fromEntries.
  destruct (last_entry K _) as [w|] eqn:E; [|congruence].
  intros _. apply last_entry_In in E. apply in_map_iff in E.
  destruct E as ([k v] & Hkv & Hin). simpl in Hkv. injection Hkv as <- <-.
  exists k. split; [reflexivity|].
  destruct raw; simpl in *; tauto.
Qed.

Lemma nullish_not_undefined (v : value) : nullish v = false -> v <> VUndefined.
Proof. intros H ->. discriminate. Qed.

Lemma truthy_not_nullish (v : value) : ToBoolean v = true -> nullish v = false.
Proof. now destruct v. Qed.

Lemma get_absent (raw : value) (k : string) :
  has_key k (entries raw) = false -> get raw k = VUndefined.
Proof.
  destruct raw; simpl; try reflexivity.
  rewrite has_key_own_properties. apply lookup_absent.
Qed.

(** The task id of the normalized object when the payload spells it in one
    way only. *)
Lemma normalized_taskId_unique (raw : value) (k : string) :
  is_json raw = true ->
  In k taskId_names ->
  (forall k', In k' taskId_names -> k' <> k -> has_key k' (entries raw) = false) ->
  nullish (get raw k) = false ->
  lookup "taskId" (normalizeKeys raw) = get raw k.
Proof.
  intros Hj Hk Hu Hv.
  destruct raw as [| | | | | |fields]; try discriminate.
  pose proof (is_json_distinct fields Hj) as Hd.
  cbn [get entries] in *. unfold normalizeKeys. cbn [entries coalesce nullish].
  rewrite lookup_fromEntries, (last_entry_camel "taskId" k).
  - rewrite last_entry_distinct by (now apply distinct_own_properties).
    rewrite has_key_own_properties, (lookup_own_properties k fields Hd).
    destruct (has_key k fields) eqn:E; [reflexivity|].
    rewrite (lookup_absent k fields E) in Hv. discriminate.
  - now apply toCamel_taskId.
  - intros k' Hh Hc. apply toCamel_taskId in Hc.
    destruct (string_dec k' k) as [|Hne]; [assumption|].
    rewrite (Hu k' Hc Hne) in Hh. discriminate.
Qed.

(** The normalized object has no task id when the payload has none under any
    of its names. *)
Lemma normalized_taskId_nullish (raw : value) :
  is_json raw = true ->
  (forall k, In k taskId_names -> nullish (get raw k) = true) ->
  nullish (lookup "taskId" (normalizeKeys raw)) = true.
Proof.
  intros Hj Hn.
  destruct (nullish (lookup "taskId" (normalizeKeys raw))) eqn:E; [reflexivity|].
  destruct (normalized_field_source "taskId" raw (nullish_not_undefined _ E))
    as (k & Hc & Hin).
  apply toCamel_taskId in Hc.
  rewrite <- (entry_get raw k _ Hj) in E; [now rewrite (Hn k Hc) in E| |exact Hin].
  intros j Ej. apply (numeral_not_taskId j). now rewrite Ej.
Qed.

Section MapColumns.

Variable JSON_stringify : value -> string.

Lemma mapColumns_ok (res : Response) (raw : value) :
  ok res = true -> body_json res = Some raw ->
  mapColumns JSON_stringify res = normalizeMap raw.
Proof.
  intros H1 H2. unfold mapColumns, requestJson. now rewrite H1, H2.
Qed.

(** C6: on a successful response, a [taskId] that [mapColumns] returns is the
    value of the payload's task id field or of its [id] field and is never
    empty; the task id field is preferred, the [id] field is used when the
    task id is absent or null, and the call throws 'Invalid map response' when
    the payload has none of these fields. *)
Theorem mapColumns_taskId (res : Response) (raw : value) :
  ok res = true -> body_json res = Some raw -> is_json raw = true ->
  (forall r, mapColumns JSON_stringify res = Fulfilled r ->
     ToBoolean (taskId r) = true /\ taskId r <> VStr "" /\
     exists k, (In k taskId_names \/ k = "id") /\ get raw k = taskId r) /\
  (forall k, In k taskId_names ->
     (forall k', In k' taskId_names -> k' <> k -> has_key k' (entries raw) = false) ->
     nullish (get raw k) = false ->
     mapColumns JSON_stringify res =
     if ToBoolean (get raw k) then Fulfilled {| taskId := get raw k |}
     else Rejected (Error "Invalid map response")) /\
  ((forall k, In k taskId_names -> nullish (get raw k) = true) ->
     mapColumns JSON_stringify res =
     if ToBoolean (get raw "id") then Fulfilled {| taskId := get raw "id" |}
     else Rejected (Error "Invalid map response")) /\
  ((forall k, In k taskId_names -> has_key k (entries raw) = false) ->
     has_key "id" (entries raw) = false ->
     mapColumns JSON_stringify res = Rejected (Error "Invalid map response")).
Proof.
  intros Hok Hb Hj. rewrite (mapColumns_ok res raw Hok Hb).
  unfold normalizeMap. cbv zeta.
  rewrite (lookup_normalizeKeys_plain "id" raw eq_refl Hj).
  assert (Hid : (forall k, In k taskId_names -> nullish (get raw k) = true) ->
                lookup "taskId" (normalizeKeys raw) ?? get raw "id" = get raw "id").
  { intros Hn. unfold coalesce. now rewrite (normalized_taskId_nullish raw Hj Hn). }
  split; [|split; [|split]].
  - intros r Hr.
    destruct (ToBoolean (lookup "taskId" (normalizeKeys raw) ?? get raw "id")) eqn:Et;
      [|discriminate].
    simpl in Hr. injection Hr as <-. cbn [taskId].
    split; [exact Et|]. split; [intros E; rewrite E in Et; discriminate|].
    unfold coalesce in *.
    destruct (nullish (lookup "taskId" (normalizeKeys raw))) eqn:En.
    + exists "id". split; [now right|reflexivity].
    + destruct (normalized_field_source "taskId" raw (nullish_not_undefined _ En))
        as (k & Hc & Hin).
      apply toCamel_taskId in Hc. exists k. split; [now left|].
      apply (entry_get raw k _ Hj); [|exact Hin].
      intros j Ej. apply (numeral_not_taskId j). now rewrite Ej.
  - intros k Hk Hu Hv.
    rewrite (normalized_taskId_unique raw k Hj Hk Hu Hv).
    unfold coalesce. rewrite Hv. now destruct (ToBoolean (get raw k)).
  - intros Hn. rewrite (Hid Hn). now destruct (ToBoolean (get raw "id")).
  - intros Hn Hi. rewrite Hid.
    + now rewrite (get_absent raw "id" Hi).
    + intros k Hk. now rewrite (get_absent raw k (Hn k Hk)).
Qed.

End MapColumns.

(** ** Failed responses, [salarySummary] and [stackCompare] *)

Lemma not_2xx_not_ok (res : Response) :
  ~ (200 <= status res <= 299)%nat -> ok res = false.
Proof.
  intros H. unfold ok. apply andb_false_iff.
  destruct (Nat.leb_spec 200 (status res)); [|now left].
  destruct (Nat.leb_spec (status res) 299); [|now right].
  exfalso. apply H. split; assumption.
Qed.

Lemma traverse_In {A B : Type} (f : A -> promise B) (l : list A) (ys : list B) :
  traverse f l = Fulfilled ys ->
  forall y, In y ys -> exists x, In x l /\ f x = Fulfilled y.
Proof.
  revert ys. induction l as [|x l IH]; simpl; intros ys H y Hy.
  - injection H as <-. destruct Hy.
  - destruct (f x) as [y0|] eqn:Ex; simpl in H; [|discriminate].
    destruct (traverse f l) as [ys0|]; simpl in H; [|discriminate].
    injection H as <-. destruct Hy as [<-|Hy].
    + exists x. split; [now left|exact Ex].
    + destruct (IH ys0 eq_refl y Hy) as (x' & Hin & Hx').
      exists x'. split; [now right|exact Hx'].
Qed.

Lemma traverse_total {A B : Type} (f : A -> promise B) (g : A -> B) (l : list A) :
  (forall x, In x l -> f x = Fulfilled (g x)) ->
  traverse f l = Fulfilled (map g l).
Proof.
  induction l as [|x l IH]; simpl; intros H; [reflexivity|].
  rewrite (H x (or_introl eq_refl)). simpl.
  rewrite IH by (intros y Hy; apply H; now right). reflexivity.
Qed.

(** ** Conversions *)

Lemma traverse_Forall2 {A B : Type} (f : A -> promise B) (l : list A) (ys : list B) :
  traverse f l = Fulfilled ys -> Forall2 (fun x y => f x = Fulfilled y) l ys.
Proof.
  revert ys. induction l as [|x l IH]; simpl; intros ys H.
  - injection H as <-. constructor.
  - destruct (f x) as [y|] eqn:Ex; simpl in H; [|discriminate].
    destruct (traverse f l) as [ys0|]; simpl in H; [|discriminate].
    injection H as <-. constructor; [exact Ex|now apply IH].
Qed.

Section Conversions.

Variable StringToNumber : string -> number.
Variable NumberToString : number -> string.

Local Abbreviation ToString' := (ToString NumberToString).
Local Abbreviation ToNumber' := (ToNumber StringToNumber NumberToString).
Local Abbreviation num' := (num StringToNumber NumberToString).
Local Abbreviation stackRow' := (stackRow StringToNumber NumberToString).
Local Abbreviation rule' := (row_number_rule ToNumber').

(** [String] throws on the values that have no string, and on them only. *)
Lemma ToString_cases (v : value) :
  (unconvertible v = true -> ToString' v = Rejected TypeError) /\
  (unconvertible v = false -> exists s, ToString' v = Fulfilled s).
Proof.
  induction v as [| |b|n|s|items IH|fields] using value_nested_ind;
    try (split; [discriminate|intros _; eexists; reflexivity]).
  - destruct b; split; try discriminate; intros _; eexists; reflexivity.
  - simpl.
    assert (H : (existsb (fun x => negb (nullish x) && unconvertible x) items = true ->
                 traverse (fun x => if nullish x then Fulfilled "" else ToString' x) items
                 = Rejected TypeError) /\
                (existsb (fun x => negb (nullish x) && unconvertible x) items = false ->
                 exists parts,
                   traverse (fun x => if nullish x then Fulfilled "" else ToString' x) items
                   = Fulfilled parts)).
    { induction IH as [|x l [Hx1 Hx2] _ [IH1 IH2]]; simpl.
      - split; [discriminate|intros _; eexists; reflexivity].
      - destruct (nullish x); simpl.
        + split.
          * intros H. now rewrite (IH1 H).
          * intros H. destruct (IH2 H) as [parts ->]. eexists. reflexivity.
        + destruct (unconvertible x); simpl.
          * split; [intros _; now rewrite Hx1|discriminate].
          * destruct (Hx2 eq_refl) as [s ->]. simpl. split.
            -- intros H. now rewrite (IH1 H).
            -- intros H. destruct (IH2 H) as [parts ->]. eexists. reflexivity. }
    destruct H as [H1 H2]. split.
    + intros H. now rewrite (H1 H).
    + intros H. destruct (H2 H) as [parts ->]. eexists. reflexivity.
  - simpl. destruct (has_key "toString" fields); split;
      try discriminate; intros _; try reflexivity; eexists; reflexivity.
Qed.

Lemma ToNumber_cases (v : value) :
  (unconvertible v = true -> ToNumber' v = Rejected TypeError) /\
  (unconvertible v = false -> exists x, ToNumber' v = Fulfilled x).
Proof.
  destruct (ToString_cases v) as [H1 H2].
  destruct v as [| |b|n|s|items|fields];
    try (split; [discriminate|intros _; eexists; reflexivity]).
  - destruct b; split; try discriminate; intros _; eexists; reflexivity.
  - unfold ToNumber. split.
    + intros H. now rewrite (H1 H).
    + intros H. destruct (H2 H) as [s ->]. eexists. reflexivity.
  - unfold ToNumber. split.
    + intros H. now rewrite (H1 H).
    + intros H. destruct (H2 H) as [s ->]. eexists. reflexivity.
Qed.

Lemma num_cases (v : value) (fallback : number) :
  (unconvertible v = true -> num' v fallback = Rejected TypeError) /\
  (unconvertible v = false -> exists x, num' v fallback = Fulfilled x).
Proof.
  destruct v as [| |b|n|s|items|fields];
    try (split; [discriminate|intros _; eexists; reflexivity]).
  - destruct b; split; try discriminate; intros _; eexists; reflexivity.
  - apply (ToNumber_cases (VArr items)).
  - apply (ToNumber_cases (VObj fields)).
Qed.

Lemma num_rejects (v : value) (fallback : number) (e : error) :
  num' v fallback = Rejected e -> e = TypeError /\ unconvertible v = true.
Proof.
  destruct (num_cases v fallback) as [H1 H2].
  destruct (unconvertible v).
  - rewrite (H1 eq_refl). intros H. injection H as <-. now split.
  - destruct (H2 eq_refl) as [x ->]. discriminate.
Qed.

Lemma num_number (x fallback : number) : num' (VNum x) fallback = Fulfilled x.
Proof. reflexivity. Qed.

Lemma num_nullish (v : value) (fallback : number) :
  nullish v = true -> num' v fallback = Fulfilled fallback.
Proof. now destruct v. Qed.

Lemma num_harmless (a b : value) :
  harmless a = true -> harmless b = true ->
  exists x, num' (a ?? b) (num_of_Z 0) = Fulfilled x /\ finite_nonneg x = true.
Proof.
  destruct a as [| | |x| | |]; try discriminate; intros Ha;
    destruct b as [| | |y| | |]; try discriminate; intros Hb;
    eexists; (split; [reflexivity|]); try reflexivity; assumption.
Qed.

Lemma num_harmless1 (a : value) :
  harmless a = true ->
  exists x, num' a (num_of_Z 0) = Fulfilled x /\ finite_nonneg x = true.
Proof.
  destruct a as [| | |x| | |]; try discriminate; intros Ha;
    eexists; (split; [reflexivity|]); try reflexivity; assumption.
Qed.

(** The number of a row, from a field and its alias. *)
Lemma row_number_cases (a b : value) :
  (pair_throws a b = true ->
   (if is_number a then Fulfilled a
    else if is_number b then Fulfilled b
    else await x <- ToNumber' (a ?? b ?? VNum (num_of_Z 0)) ;; Fulfilled (VNum x))
   = Rejected TypeError) /\
  (pair_throws a b = false ->
   exists x,
     (if is_number a then Fulfilled a
      else if is_number b then Fulfilled b
      else await x <- ToNumber' (a ?? b ?? VNum (num_of_Z 0)) ;; Fulfilled (VNum x))
     = Fulfilled (VNum x) /\ rule' a b x).
Proof.
  unfold pair_throws, row_number_rule.
  destruct (ToNumber_cases (a ?? b ?? VNum (num_of_Z 0))) as [H1 H2].
  destruct a as [| |ba|xa|sa|ia|fa]; cbn [is_number negb andb];
    try (split; [discriminate|intros _; eexists; split; reflexivity]);
    destruct b as [| |bb|xb|sb|ib|fb]; cbn [is_number negb andb];
    try (split; [discriminate|intros _; eexists; split; reflexivity]);
    (split;
     [intros H; now rewrite (H1 H)
     |intros H; destruct (H2 H) as [x Hx]; rewrite Hx; exists x; now split]).
Qed.

Lemma row_stack_string (item : value) :
  (if is_string (get item "stack") then get item "stack"
   else if is_string (get item "tech") then get item "tech"
   else VStr "-") = VStr (row_stack_rule item).
Proof.
  unfold row_stack_rule.
  destruct (get item "stack"); try reflexivity;
    destruct (get item "tech"); reflexivity.
Qed.

(** The callback throws on the rows of [row_throws], and gives the others a
    row by the rules. *)
Lemma stackRow_cases (item : value) :
  (row_throws item = true -> stackRow' item = Rejected TypeError) /\
  (row_throws item = false ->
   exists row, stackRow' item = Fulfilled row /\
     row_stack row = row_stack_rule item /\
     rule' (get item "p50") (get item "median") (row_p50 row) /\
     rule' (get item "n") (get item "count") (row_n row)).
Proof.
  unfold stackRow, row_throws. rewrite row_stack_string.
  destruct (nullish item); [split; [reflexivity|discriminate]|].
  cbn [orb].
  destruct (row_number_cases (get item "p50") (get item "median")) as [P1 P2].
  destruct (row_number_cases (get item "n") (get item "count")) as [N1 N2].
  destruct (pair_throws (get item "p50") (get item "median")).
  - rewrite (P1 eq_refl). split; [reflexivity|discriminate].
  - destruct (P2 eq_refl) as (x & -> & Rx). cbn [orb bind].
    destruct (pair_throws (get item "n") (get item "count")).
    + rewrite (N1 eq_refl). split; [reflexivity|discriminate].
    + destruct (N2 eq_refl) as (y & -> & Ry). split; [discriminate|].
      intros _. eexists. split; [reflexivity|]. now repeat split.
Qed.

Lemma stackRow_fields (item : value) (row : StackCompareRow) :
  stackRow' item = Fulfilled row ->
  row_throws item = false /\
  row_stack row = row_stack_rule item /\
  rule' (get item "p50") (get item "median") (row_p50 row) /\
  rule' (get item "n") (get item "count") (row_n row).
Proof.
  destruct (stackRow_cases item) as [H1 H2]. intros H.
  destruct (row_throws item).
  - rewrite (H1 eq_refl) in H. discriminate.
  - destruct (H2 eq_refl) as (row' & E & R). rewrite E in H.
    injection H as <-. now split.
Qed.

Lemma traverse_stackRow (items : list value) :
  (existsb row_throws items = true ->
   traverse stackRow' items = Rejected TypeError) /\
  (existsb row_throws items = false ->
   exists rows, traverse stackRow' items = Fulfilled rows).
Proof.
  induction items as [|x items [IH1 IH2]]; simpl.
  - split; [discriminate|intros _; eexists; reflexivity].
  - destruct (stackRow_cases x) as [H1 H2].
    destruct (row_throws x); simpl.
    + rewrite (H1 eq_refl). split; [reflexivity|discriminate].
    + destruct (H2 eq_refl) as (row & -> & _). simpl. split.
      * intros H. now rewrite (IH1 H).
      * intros H. destruct (IH2 H) as [rows ->]. eexists. reflexivity.
Qed.

Lemma traverse_stackRow_rejects (items : list value) (e : error) :
  traverse stackRow' items = Rejected e ->
  e = TypeError /\ existsb row_throws items = true.
Proof.
  destruct (traverse_stackRow items) as [H1 H2].
  destruct (existsb row_throws items).
  - rewrite (H1 eq_refl). intros H. injection H as <-. now split.
  - destruct (H2 eq_refl) as [rows ->]. discriminate.
Qed.

End Conversions.

Section Endpoints.

Variable toUpperCase : string -> string.
Variable StringToNumber : string -> number.
Variable NumberToString : number -> string.
Variable JSON_stringify : value -> string.

Local Abbreviation num' := (num StringToNumber NumberToString).
Local Abbreviation salarySummary' :=
  (salarySummary StringToNumber NumberToString JSON_stringify).
Local Abbreviation stackCompare' :=
  (stackCompare StringToNumber NumberToString JSON_stringify).
Local Abbreviation stackRow' := (stackRow StringToNumber NumberToString).
Local Abbreviation rule' :=
  (row_number_rule (ToNumber StringToNumber NumberToString)).

(** C8, as amended: on a response whose status is not 2xx each endpoint
    function throws an [ApiError] with the status of the response, and never
    returns; its payload is the parsed body when the content type is JSON and
    the body parses, the empty object when the content type is JSON and the
    body does not parse, and the text of the body otherwise. *)
Theorem failed_response_throws_ApiError (res : Response) :
  ~ (200 <= status res <= 299)%nat ->
  let e := ApiError (error_message JSON_stringify res) (status res) (error_payload res) in
  uploadFile JSON_stringify res = Rejected e /\
  mapColumns JSON_stringify res = Rejected e /\
  taskStatus toUpperCase JSON_stringify res = Rejected e /\
  salarySummary' res = Rejected e /\
  stackCompare' res = Rejected e /\
  (isJson res = true -> forall v, body_json res = Some v -> error_payload res = v) /\
  (isJson res = true -> body_json res = None -> error_payload res = VObj []) /\
  (isJson res = false -> error_payload res = VStr (body_text res)).
Proof.
  intros H. apply not_2xx_not_ok in H. cbv zeta.
  unfold uploadFile, mapColumns, taskStatus, salarySummary, stackCompare, requestJson.
  rewrite H. simpl. repeat split; unfold error_payload.
  - now intros -> v ->.
  - now intros -> ->.
  - now intros ->.
Qed.

Lemma salarySummary_ok (res : Response) (raw : value) :
  ok res = true -> body_json res = Some raw ->
  salarySummary' res =
  (await p50 <- num' (get (summary_container raw) "p50" ??
                      get (summary_container raw) "median") (num_of_Z 0) ;;
   await p75 <- num' (get (summary_container raw) "p75") (num_of_Z 0) ;;
   await p90 <- num' (get (summary_container raw) "p90") (num_of_Z 0) ;;
   await n <- num' (get (summary_container raw) "n" ??
                    get (summary_container raw) "count") (num_of_Z 0) ;;
   Fulfilled {| sum_p50 := p50; sum_p75 := p75; sum_p90 := p90; sum_n := n |}).
Proof. intros H1 H2. unfold salarySummary, requestJson. now rewrite H1, H2. Qed.

(** Each field of a summary that is returned is the outcome of its
    conversion. *)
Lemma salarySummary_fulfilled (res : Response) (raw : value) (r : SalarySummary) :
  ok res = true -> body_json res = Some raw ->
  salarySummary' res = Fulfilled r ->
  num' (get (summary_container raw) "p50" ?? get (summary_container raw) "median")
       (num_of_Z 0) = Fulfilled (sum_p50 r) /\
  num' (get (summary_container raw) "p75") (num_of_Z 0) = Fulfilled (sum_p75 r) /\
  num' (get (summary_container raw) "p90") (num_of_Z 0) = Fulfilled (sum_p90 r) /\
  num' (get (summary_container raw) "n" ?? get (summary_container raw) "count")
       (num_of_Z 0) = Fulfilled (sum_n r).
Proof.
  intros Hok Hb. rewrite (salarySummary_ok res raw Hok Hb).
  destruct (num' (_ ?? _) _) as [a|]; [|discriminate].
  destruct (num' (get _ "p75") _) as [b|]; [|discriminate].
  destruct (num' (get _ "p90") _) as [c|]; [|discriminate].
  destruct (num' (_ ?? _) _) as [d|]; [|discriminate].
  simpl. intros H. injection H as <-. now repeat split.
Qed.

(** A summary is returned when no conversion throws. *)
Lemma salarySummary_returns (res : Response) (raw : value) :
  ok res = true -> body_json res = Some raw ->
  existsb unconvertible
    [get (summary_container raw) "p50" ?? get (summary_container raw) "median";
     get (summary_container raw) "p75";
     get (summary_container raw) "p90";
     get (summary_container raw) "n" ?? get (summary_container raw) "count"] = false ->
  exists r, salarySummary' res = Fulfilled r.
Proof.
  intros Hok Hb. rewrite (salarySummary_ok res raw Hok Hb).
  cbn [existsb]. rewrite !orb_false_iff. intros (H1 & H2 & H3 & H4 & _).
  destruct (proj2 (num_cases StringToNumber NumberToString _ (num_of_Z 0)) H1) as [a ->].
  destruct (proj2 (num_cases StringToNumber NumberToString _ (num_of_Z 0)) H2) as [b ->].
  destruct (proj2 (num_cases StringToNumber NumberToString _ (num_of_Z 0)) H3) as [c ->].
  destruct (proj2 (num_cases StringToNumber NumberToString _ (num_of_Z 0)) H4) as [d ->].
  eexists. reflexivity.
Qed.

Lemma stackCompare_ok (res : Response) (raw : value) :
  ok res = true -> body_json res = Some raw ->
  stackCompare' res =
  match compare_rows raw with
  | VArr items => traverse stackRow' items
  | _ => Fulfilled []
  end.
Proof. intros H1 H2. unfold stackCompare, requestJson. now rewrite H1, H2. Qed.

Lemma rule_harmless (a b : value) (x : number) :
  harmless a = true -> harmless b = true ->
  rule' a b x -> finite_nonneg x = true.
Proof.
  unfold row_number_rule.
  destruct a as [| | |u| | |]; try discriminate; intros Ha;
    destruct b as [| | |v| | |]; try discriminate; intros Hb H;
    try (injection H as <-; reflexivity); now subst.
Qed.

(** C4, as amended: a field of the payload that is a number is returned as
    it is, with no check: by [salarySummary] for [p50], [p75], [p90], [n],
    and for [median] and [count] where [p50] and [n] are absent or null; by
    [stackCompare], in each row, for [p50] and [n], and for [median] and
    [count] where [p50] and [n] are no numbers.  So the numeric fields that
    are returned are finite and not negative whenever each payload field
    they are read from is absent, null, or a finite number that is not
    negative. *)
Theorem summaries_nonneg_if_payload_is (res : Response) (raw : value) :
  ok res = true -> body_json res = Some raw ->
  (forall r, salarySummary' res = Fulfilled r ->
     let c := summary_container raw in
     (forall x, get c "p50" = VNum x -> sum_p50 r = x) /\
     (forall x, nullish (get c "p50") = true -> get c "median" = VNum x ->
                sum_p50 r = x) /\
     (forall x, get c "p75" = VNum x -> sum_p75 r = x) /\
     (forall x, get c "p90" = VNum x -> sum_p90 r = x) /\
     (forall x, get c "n" = VNum x -> sum_n r = x) /\
     (forall x, nullish (get c "n") = true -> get c "count" = VNum x ->
                sum_n r = x) /\
     (forallb (fun k => harmless (get c k))
        ["p50"; "median"; "p75"; "p90"; "n"; "count"] = true ->
      finite_nonneg (sum_p50 r) && finite_nonneg (sum_p75 r) &&
      finite_nonneg (sum_p90 r) && finite_nonneg (sum_n r) = true)) /\
  (forall rows items, stackCompare' res = Fulfilled rows ->
     compare_rows raw = VArr items ->
     Forall2 (fun item row =>
        (forall x, get item "p50" = VNum x -> row_p50 row = x) /\
        (forall x, is_number (get item "p50") = false ->
                   get item "median" = VNum x -> row_p50 row = x) /\
        (forall x, get item "n" = VNum x -> row_n row = x) /\
        (forall x, is_number (get item "n") = false ->
                   get item "count" = VNum x -> row_n row = x) /\
        (forallb (fun k => harmless (get item k))
           ["p50"; "median"; "n"; "count"] = true ->
         finite_nonneg (row_p50 row) && finite_nonneg (row_n row) = true))
       items rows).
Proof.
  intros Hok Hb. split.
  - intros r Hr.
    destruct (salarySummary_fulfilled res raw r Hok Hb Hr) as (H1 & H2 & H3 & H4).
    cbv zeta. repeat split.
    + intros x E. rewrite E in H1. now injection H1.
    + intros x En E. unfold coalesce in H1. rewrite En, E in H1. now injection H1.
    + intros x E. rewrite E in H2. now injection H2.
    + intros x E. rewrite E in H3. now injection H3.
    + intros x E. rewrite E in H4. now injection H4.
    + intros x En E. unfold coalesce in H4. rewrite En, E in H4. now injection H4.
    + cbn [forallb]. rewrite !andb_true_iff.
      intros (A1 & A2 & A3 & A4 & A5 & A6 & _).
      destruct (num_harmless StringToNumber NumberToString _ _ A1 A2) as (a & Ea & Fa).
      destruct (num_harmless1 StringToNumber NumberToString _ A3) as (b & Eb & Fb).
      destruct (num_harmless1 StringToNumber NumberToString _ A4) as (c & Ec & Fc).
      destruct (num_harmless StringToNumber NumberToString _ _ A5 A6) as (d & Ed & Fd).
      rewrite H1 in Ea. rewrite H2 in Eb. rewrite H3 in Ec. rewrite H4 in Ed.
      injection Ea as ->. injection Eb as ->. injection Ec as ->. injection Ed as ->.
      now repeat split.
  - intros rows items Hr Hc.
    rewrite (stackCompare_ok res raw Hok Hb), Hc in Hr.
    apply traverse_Forall2 in Hr.
    refine (Forall2_impl _ _ Hr). intros item row Hrow.
    destruct (stackRow_fields StringToNumber NumberToString item row Hrow)
      as (_ & _ & Rp & Rn).
    unfold row_number_rule in Rp, Rn. repeat split.
    + intros x E. now rewrite E in Rp.
    + intros x En E. rewrite E in Rp. now destruct (get item "p50").
    + intros x E. now rewrite E in Rn.
    + intros x En E. rewrite E in Rn. now destruct (get item "n").
    + cbn [forallb]. rewrite !andb_true_iff.
      intros (A1 & A2 & A3 & A4 & _). split.
      * now apply (rule_harmless (get item "p50") (get item "median")).
      * now apply (rule_harmless (get item "n") (get item "count")).
Qed.

(** C9 at the payload [[null]]: the first property read of the row callback
    throws. *)
Theorem stackCompare_null_row :
  stackCompare' Sample.null_row_response = Rejected TypeError.
Proof. reflexivity. Qed.

(** What [stackCompare] does on the other payloads: nothing to return when
    there is no array, and one row per element when no element makes the
    callback throw. *)
Lemma stackCompare_rows (res : Response) (raw : value) :
  ok res = true -> body_json res = Some raw ->
  (isArray (compare_rows raw) = false -> stackCompare' res = Fulfilled []) /\
  (forall items, compare_rows raw = VArr items ->
     existsb row_throws items = false ->
     exists rows, stackCompare' res = Fulfilled rows /\
       List.length rows = List.length items /\
       map row_stack rows = map row_stack_rule items).
Proof.
  intros Hok Hb. rewrite (stackCompare_ok res raw Hok Hb). split.
  - now destruct (compare_rows raw).
  - intros items -> Hn.
    destruct (proj2 (traverse_stackRow StringToNumber NumberToString items) Hn)
      as [rows Hrows].
    exists rows. split; [exact Hrows|].
    apply traverse_Forall2 in Hrows. clear Hn.
    induction Hrows as [|item row items rows Hrow _ IH]; [now split|].
    destruct IH as [IH1 IH2].
    destruct (stackRow_fields StringToNumber NumberToString item row Hrow)
      as (_ & Hs & _).
    simpl. now rewrite IH1, IH2, Hs.
Qed.

(** C10: a payload that wraps the fields in [data] and the payload that
    gives the same fields flat have the same summary; the value of [median]
    stands in for an absent [p50] and the value of [count] for an absent
    [n]; a field with no source is 0.  The summary is returned when none of
    the fields is a value that has no string. *)
Theorem salarySummary_wrapped_flat (res1 res2 : Response) (w fields : object) :
  ok res1 = true -> body_json res1 = Some (VObj w) ->
  lookup "data" w = VObj fields ->
  ok res2 = true -> body_json res2 = Some (VObj fields) ->
  nullish (lookup "data" fields) = true ->
  salarySummary' res1 = salarySummary' res2 /\
  (forallb (fun k => negb (unconvertible (lookup k fields)))
     ["p50"; "median"; "p75"; "p90"; "n"; "count"] = true ->
   exists r, salarySummary' res2 = Fulfilled r) /\
  (forall r, salarySummary' res2 = Fulfilled r ->
    (forall x, nullish (lookup "p50" fields) = true ->
       lookup "median" fields = VNum x -> sum_p50 r = x) /\
    (forall s, nullish (lookup "p50" fields) = true ->
       lookup "median" fields = VStr s -> sum_p50 r = StringToNumber s) /\
    (nullish (lookup "p50" fields) = true ->
       num' (lookup "median" fields) (num_of_Z 0) = Fulfilled (sum_p50 r)) /\
    (forall x, nullish (lookup "n" fields) = true ->
       lookup "count" fields = VNum x -> sum_n r = x) /\
    (forall s, nullish (lookup "n" fields) = true ->
       lookup "count" fields = VStr s -> sum_n r = StringToNumber s) /\
    (nullish (lookup "n" fields) = true ->
       num' (lookup "count" fields) (num_of_Z 0) = Fulfilled (sum_n r)) /\
    (nullish (lookup "p50" fields) = true -> nullish (lookup "median" fields) = true ->
     sum_p50 r = num_of_Z 0) /\
    (nullish (lookup "p75" fields) = true -> sum_p75 r = num_of_Z 0) /\
    (nullish (lookup "p90" fields) = true -> sum_p90 r = num_of_Z 0) /\
    (nullish (lookup "n" fields) = true -> nullish (lookup "count" fields) = true ->
     sum_n r = num_of_Z 0)).
Proof.
  intros Hok1 Hb1 Hd Hok2 Hb2 Hflat.
  assert (E1 : summary_container (VObj w) = VObj fields).
  { unfold summary_container. simpl. now rewrite Hd. }
  assert (E2 : summary_container (VObj fields) = VObj fields).
  { unfold summary_container. simpl. unfold coalesce at 1. now rewrite Hflat. }
  split; [|split].
  - rewrite (salarySummary_ok res1 _ Hok1 Hb1), (salarySummary_ok res2 _ Hok2 Hb2).
    now rewrite E1, E2.
  - cbn [forallb]. rewrite !andb_true_iff, !negb_true_iff.
    intros (A1 & A2 & A3 & A4 & A5 & A6 & _).
    apply (salarySummary_returns res2 (VObj fields) Hok2 Hb2).
    rewrite E2. cbn [existsb get]. unfold coalesce.
    rewrite A3, A4.
    destruct (nullish (lookup "p50" fields)), (nullish (lookup "n" fields));
      now rewrite ?A1, ?A2, ?A5, ?A6.
  - intros r Hr.
    destruct (salarySummary_fulfilled res2 _ r Hok2 Hb2 Hr) as (H1 & H2 & H3 & H4).
    rewrite E2 in H1, H2, H3, H4. cbn [get] in H1, H2, H3, H4.
    unfold coalesce in H1, H4. repeat split.
    + intros x En E. rewrite En, E in H1. now injection H1.
    + intros s En E. rewrite En, E in H1. now injection H1.
    + intros En. now rewrite En in H1.
    + intros x En E. rewrite En, E in H4. now injection H4.
    + intros s En E. rewrite En, E in H4. now injection H4.
    + intros En. now rewrite En in H4.
    + intros En Em. rewrite En in H1.
      rewrite (num_nullish StringToNumber NumberToString _ _ Em) in H1.
      now injection H1.
    + intros En. rewrite (num_nullish StringToNumber NumberToString _ _ En) in H2.
      now injection H2.
    + intros En. rewrite (num_nullish StringToNumber NumberToString _ _ En) in H3.
      now injection H3.
    + intros En Em. rewrite En in H4.
      rewrite (num_nullish StringToNumber NumberToString _ _ Em) in H4.
      now injection H4.
Qed.

End Endpoints.

(** ** The nearest-rank percentile *)

Lemma insert_elements (x : Z) (l : list Z) :
  Permutation (x :: l) (Aggregator.insert x l).
Proof.
  induction l as [|y l IH]; simpl; [apply Permutation_refl|].
  destruct (x <=? y); [apply Permutation_refl|].
  eapply perm_trans; [apply perm_swap|]. now apply perm_skip.
Qed.

Lemma sort_elements (l : list Z) : Permutation l (Aggregator.sort l).
Proof.
  induction l as [|x l IH]; simpl; [apply perm_nil|].
  eapply perm_trans; [apply perm_skip, IH|apply insert_elements].
Qed.

Lemma insert_keeps_order (x : Z) (l : list Z) :
  Aggregator.sorted l -> Aggregator.sorted (Aggregator.insert x l).
Proof.
  induction 1 as [|y|y z l Hyz Hs IH].
  - constructor.
  - simpl. destruct (Z.leb_spec x y); constructor; try constructor; lia.
  - change (Aggregator.insert x (y :: z :: l))
      with (if x <=? y then x :: y :: z :: l
            else y :: Aggregator.insert x (z :: l)).
    destruct (Z.leb_spec x y) as [Hxy|Hxy].
    + constructor; [exact Hxy|]. now constructor.
    + simpl in IH |- *. destruct (Z.leb_spec x z) as [Hxz|Hxz].
      * constructor; [lia|exact IH].
      * constructor; [exact Hyz|exact IH].
Qed.

Lemma sort_in_order (l : list Z) : Aggregator.sorted (Aggregator.sort l).
Proof.
  induction l as [|x l IH]; simpl; [constructor|now apply insert_keeps_order].
Qed.

(** The rank is the ceiling of [p * n / 100], and it is a position of the
    sequence. *)
Lemma rank_in_range (p n : nat) :
  (0 < p <= 100)%nat -> (0 < n)%nat ->
  (1 <= Aggregator.rank p n <= n)%nat /\
  (100 * (Aggregator.rank p n - 1) < p * n <= 100 * Aggregator.rank p n)%nat.
Proof.
  intros Hp Hn. unfold Aggregator.rank.
  assert (H1 : (1 <= p * n)%nat) by nia.
  assert (H2 : (p * n <= 100 * n)%nat) by nia.
  revert H1 H2. generalize (p * n)%nat. intros m H1 H2.
  pose proof (Nat.div_mod_eq (m + 99) 100).
  pose proof (Nat.mod_upper_bound (m + 99) 100).
  lia.
Qed.

(** C5: the percentile is the element of the sorted salaries at the rank
    ceil(p/100 * n), counted from 1; for the salaries 10, 20, 30, 40, 50 this
    gives p50 = 30, p90 = 50 and n = 5. *)
Theorem percentile_nearest_rank (p : nat) (salaries : list Z) :
  (0 < p <= 100)%nat -> salaries <> [] ->
  let n := List.length salaries in
  let r := Aggregator.rank p n in
  (1 <= r <= n)%nat /\
  (100 * (r - 1) < p * n <= 100 * r)%nat /\
  Aggregator.sorted (Aggregator.sort salaries) /\
  Permutation salaries (Aggregator.sort salaries) /\
  (exists x, Aggregator.percentile p salaries = Some x /\
             nth_error (Aggregator.sort salaries) (r - 1) = Some x /\
             In x salaries) /\
  Aggregator.salarySummary [10; 20; 30; 40; 50] =
  {| Aggregator.p50 := Some 30; Aggregator.p75 := Some 40;
     Aggregator.p90 := Some 50; Aggregator.n := 5 |}.
Proof.
  intros Hp Hne n r.
  assert (Hn : (0 < n)%nat).
  { subst n. destruct salaries; [congruence|simpl; lia]. }
  destruct (rank_in_range p n Hp Hn) as [Hr Hc]. fold r in Hr, Hc.
  split; [exact Hr|]. split; [exact Hc|].
  split; [apply sort_in_order|]. split; [apply sort_elements|].
  split; [|reflexivity].
  pose proof (sort_elements salaries) as Hperm.
  destruct (nth_error (Aggregator.sort salaries) (r - 1)) as [x|] eqn:E.
  - exists x. split; [|split; [reflexivity|]].
    + unfold Aggregator.percentile. fold n. fold r.
      destruct r as [|i]; [lia|]. now replace (S i - 1)%nat with i in E by lia.
    + apply (Permutation_in x (Permutation_sym Hperm)).
      now apply nth_error_In with (n := (r - 1)%nat).
  - exfalso. apply nth_error_None in E.
    rewrite <- (Permutation_length Hperm) in E. fold n in E. lia.
Qed.

(** ** The statements at the sample responses *)

(** C1 as the specification states it fails on the status of the test suite:
    ['started'] is returned as ['STARTED'], which is no lifecycle name of the
    specification. *)
Lemma taskStatus_state_not_canonical :
  taskStatus Sample.toUpperCase Sample.JSON_stringify Sample.started_response =
    Fulfilled Sample.started_result /\
  ts_state Sample.started_result = "STARTED" /\
  mem (ts_state Sample.started_result) canonical_states = false.
Proof. repeat split. Qed.

Lemma taskStatus_state_uppercased_witness :
  ok Sample.started_response = true /\
  body_json Sample.started_response = Some Sample.started_payload /\
  is_json Sample.started_payload = true /\
  get Sample.started_payload "state" ?? get Sample.started_payload "status"
    ?? VStr "PENDING" = VStr "started" /\
  exists r,
    taskStatus Sample.toUpperCase Sample.JSON_stringify Sample.started_response =
      Fulfilled r /\
    ts_state r = Sample.toUpperCase "started".
Proof.
  repeat (split; [reflexivity|]).
  apply (taskStatus_state_uppercased Sample.toUpperCase Sample.JSON_stringify
           Sample.started_response Sample.started_payload "started");
    reflexivity.
Defined.

Lemma taskStatus_percent_clamped_witness :
  ok Sample.started_response = true /\
  get (get Sample.started_payload "meta") "percent" = VNum (Fin 105) /\
  exists (m : object) (k : Z),
    ts_meta Sample.started_result = Some m /\
    lookup "percent" m = VNum (num_of_Z k) /\
    0 <= k <= 100 /\
    clamped_to (Fin 105) k /\
    (forall q, Fin 105 = Fin q -> (Qabs (inject_Z (round_half_up q) - q) <= 1 # 2)%Q).
Proof.
  repeat (split; [reflexivity|]).
  apply (taskStatus_percent_clamped Sample.toUpperCase Sample.JSON_stringify
           Sample.started_response Sample.started_payload (Fin 105)
           Sample.started_result);
    reflexivity.
Defined.

(** C3 as the specification states it fails on a pending task whose flags
    are set: both flags are returned set. *)
Lemma taskStatus_flags_not_derived :
  taskStatus Sample.toUpperCase Sample.JSON_stringify Sample.flagged_response =
    Fulfilled Sample.flagged_result /\
  ts_successful Sample.flagged_result = true /\
  (ts_state Sample.flagged_result =? "SUCCESS")%string = false /\
  ts_ready Sample.flagged_result = true /\
  mem (ts_state Sample.flagged_result) terminal_states = false.
Proof. repeat split. Qed.

Lemma taskStatus_flags_copied_witness :
  ok Sample.flagged_response = true /\
  body_json Sample.flagged_response = Some Sample.flagged_payload /\
  is_json Sample.flagged_payload = true /\
  ts_ready Sample.flagged_result = ToBoolean (get Sample.flagged_payload "ready") /\
  ts_successful Sample.flagged_result =
    ToBoolean (get Sample.flagged_payload "successful").
Proof.
  repeat (split; [reflexivity|]).
  apply (taskStatus_flags_copied Sample.toUpperCase Sample.JSON_stringify
           Sample.flagged_response Sample.flagged_payload Sample.flagged_result);
    reflexivity.
Defined.

Lemma taskStatus_meta_optional_witness :
  ok Sample.flagged_response = true /\
  has_key "meta" (entries Sample.flagged_payload) = false /\
  ts_meta Sample.flagged_result = None.
Proof.
  repeat (split; [reflexivity|]).
  apply (taskStatus_meta_optional Sample.toUpperCase Sample.JSON_stringify
           Sample.flagged_response Sample.flagged_payload Sample.flagged_result);
    reflexivity.
Defined.

Lemma mapColumns_taskId_witness :
  ok Sample.task1_response = true /\
  body_json Sample.task1_response = Some Sample.task1_payload /\
  is_json Sample.task1_payload = true /\
  mapColumns Sample.JSON_stringify Sample.task1_response =
    Fulfilled {| taskId := VStr "task-1" |}.
Proof.
  repeat (split; [reflexivity|]).
  apply (proj1 (proj2 (mapColumns_taskId Sample.JSON_stringify
                         Sample.task1_response Sample.task1_payload
                         eq_refl eq_refl eq_refl)) "task_id").
  - simpl. auto.
  - intros k' Hk Hne. simpl in Hk.
    destruct Hk as [<-|[<-|[<-|[<-|[<-|[]]]]]]; try reflexivity.
    now destruct Hne.
  - reflexivity.
Defined.

(** C4 as the specification states it fails on a summary with a negative
    median: the number is returned as it is. *)
Lemma salarySummary_negative_returned :
  salarySummary Sample.StringToNumber Sample.NumberToString Sample.JSON_stringify
    Sample.negative_response =
    Fulfilled {| sum_p50 := Fin (-42 # 1); sum_p75 := Fin 60;
                 sum_p90 := Fin 80; sum_n := Fin 7 |} /\
  finite_nonneg (Fin (-42 # 1)) = false.
Proof. split; reflexivity. Qed.

Lemma summaries_nonneg_if_payload_is_witness :
  ok Sample.flat_response = true /\
  body_json Sample.flat_response = Some (VObj Sample.summary_fields) /\
  finite_nonneg (Fin 50) && finite_nonneg (Fin 70) &&
  finite_nonneg (Fin 90) && finite_nonneg (Fin 10) = true.
Proof.
  repeat (split; [reflexivity|]).
  apply (proj1 (summaries_nonneg_if_payload_is
                  Sample.StringToNumber Sample.NumberToString Sample.JSON_stringify
                  Sample.flat_response (VObj Sample.summary_fields) eq_refl eq_refl)
               {| sum_p50 := Fin 50; sum_p75 := Fin 70;
                  sum_p90 := Fin 90; sum_n := Fin 10 |} eq_refl).
  reflexivity.
Defined.

(** C8 as the specification states it fails on a failed response that is
    announced as JSON and whose body is not JSON: the payload of the error is
    the empty object, which is neither the parsed body nor its text. *)
Lemma failed_response_payload_not_body :
  (exists msg,
     uploadFile Sample.JSON_stringify Sample.broken_json_response =
     Rejected (ApiError msg 500 (VObj []))) /\
  ~ carries_body Sample.broken_json_response (VObj []).
Proof.
  split.
  - eexists. reflexivity.
  - intros [H|H]; discriminate.
Qed.

Lemma failed_response_throws_ApiError_witness :
  ~ (200 <= status Sample.text_error_response <= 299)%nat /\
  mapColumns Sample.JSON_stringify Sample.text_error_response =
    Rejected (ApiError "[500] Internal Server Error - boom" 500 (VStr "boom")).
Proof.
  assert (H : ~ (200 <= status Sample.text_error_response <= 299)%nat)
    by (simpl; lia).
  split; [exact H|].
  exact (proj1 (proj2 (failed_response_throws_ApiError
                         Sample.toUpperCase Sample.StringToNumber Sample.NumberToString
                         Sample.JSON_stringify Sample.text_error_response H))).
Defined.

Lemma salarySummary_wrapped_flat_witness :
  ok Sample.wrapped_response = true /\
  ok Sample.flat_response = true /\
  lookup "data" [("data", VObj Sample.summary_fields)] = VObj Sample.summary_fields /\
  nullish (lookup "data" Sample.summary_fields) = true /\
  salarySummary Sample.StringToNumber Sample.NumberToString Sample.JSON_stringify
    Sample.wrapped_response =
  salarySummary Sample.StringToNumber Sample.NumberToString Sample.JSON_stringify
    Sample.flat_response /\
  exists r,
    salarySummary Sample.StringToNumber Sample.NumberToString Sample.JSON_stringify
      Sample.flat_response = Fulfilled r /\
    sum_p50 r = Fin 50 /\ sum_n r = Fin 10.
Proof.
  repeat (split; [reflexivity|]).
  destruct (salarySummary_wrapped_flat
              Sample.StringToNumber Sample.NumberToString Sample.JSON_stringify
              Sample.wrapped_response Sample.flat_response
              [("data", VObj Sample.summary_fields)] Sample.summary_fields
              eq_refl eq_refl eq_refl eq_refl eq_refl eq_refl)
    as (_ & Hret & Hsub).
  destruct (Hret eq_refl) as [r Hr]. exists r. split; [exact Hr|].
  destruct (Hsub r Hr) as (Hm & _ & _ & Hc & _).
  split; [apply (Hm (Fin 50)); reflexivity|apply (Hc (Fin 10)); reflexivity].
Defined.

Lemma percentile_nearest_rank_witness :
  (0 < 50 <= 100)%nat /\ [10; 20; 30; 40; 50] <> [] /\
  exists x, Aggregator.percentile 50 [10; 20; 30; 40; 50] = Some x /\
            nth_error (Aggregator.sort [10; 20; 30; 40; 50])
                      (Aggregator.rank 50 5 - 1) = Some x /\
            In x [10; 20; 30; 40; 50].
Proof.
  assert (Hp : (0 < 50 <= 100)%nat) by lia.
  assert (Hl : [10; 20; 30; 40; 50] <> []) by discriminate.
  split; [exact Hp|]. split; [exact Hl|].
  exact (proj1 (proj2 (proj2 (proj2 (proj2
           (percentile_nearest_rank 50 [10; 20; 30; 40; 50] Hp Hl)))))).
Defined.

(** * Further properties of the module *)

(** ** [toCamel] *)

Lemma toCamel_length (s : string) :
  (String.length (toCamel s) <= String.length s)%nat /\
  (has_match s = true -> String.length (toCamel s) < String.length s)%nat.
Proof.
  remember (String.length s) as k eqn:Hk.
  revert s Hk. induction k as [k IH] using lt_wf_ind. intros s Hk.
  destruct s as [|c [|d rest]].
  - simpl in *. split; [lia|discriminate].
  - simpl in *. split; [lia|discriminate].
  - rewrite toCamel_cons2.
    change (has_match (String c (String d rest)))
      with ((is_sep c && is_word d) || has_match (String d rest)).
    destruct (is_sep c && is_word d).
    + destruct (IH (String.length rest)) with (s := rest) as [Hle _];
        [subst k; simpl; lia|reflexivity|].
      simpl in *. split; intros; lia.
    + destruct (IH (String.length (String d rest))) with (s := String d rest)
        as [Hle Hlt]; [subst k; simpl; lia|reflexivity|].
      cbn [orb]. simpl String.length in *. split; [lia|].
      intros H. specialize (Hlt H). lia.
Qed.

Lemma toCamel_no_match (s : string) : has_match s = false -> toCamel s = s.
Proof.
  induction s as [|c t IH]; [reflexivity|].
  destruct t as [|d rest]; [reflexivity|].
  change (has_match (String c (String d rest)))
    with ((is_sep c && is_word d) || has_match (String d rest)).
  intros H. apply orb_false_iff in H. destruct H as [H1 H2].
  rewrite toCamel_cons2, H1. now rewrite (IH H2).
Qed.

(** X1: a name is left as it is exactly when it holds no separator followed
    by a word character; renaming never makes a name longer. *)
Theorem toCamel_fixed_iff (s : string) :
  (toCamel s = s <-> has_match s = false) /\
  (String.length (toCamel s) <= String.length s)%nat.
Proof.
  split; [|apply toCamel_length]. split.
  - intros E. destruct (has_match s) eqn:H; [|reflexivity].
    apply (proj2 (toCamel_length s)) in H. rewrite E in H. lia.
  - apply toCamel_no_match.
Qed.

Lemma toCamel_fileId (k : string) :
  toCamel k = "fileId" <-> In k fileId_names.
Proof.
  split.
  - intros H.
    apply toCamel_head_lower in H; [|reflexivity]. destruct H as (t1 & -> & H).
    apply toCamel_head_lower in H; [|reflexivity]. destruct H as (t2 & -> & H).
    apply toCamel_head_lower in H; [|reflexivity]. destruct H as (t3 & -> & H).
    apply toCamel_head_lower in H; [|reflexivity]. destruct H as (t4 & -> & H).
    apply toCamel_head_inv in H.
    destruct H as [(t & -> & H) | (c & d & rest & -> & Hs & _ & Hu & H)].
    + apply (toCamel_plain_iff "d" t eq_refl) in H. subst t. simpl. auto.
    + apply (toCamel_plain_iff "d" rest eq_refl) in H. subst rest.
      apply is_sep_inv in Hs. apply upper_char_I_inv in Hu.
      destruct Hs as [-> | ->], Hu as [-> | ->]; simpl; auto 6.
  - simpl. intros [<-|[<-|[<-|[<-|[<-|[]]]]]]; reflexivity.
Qed.

(** X2: the snake, kebab and camel spellings, and no other name, are turned
    into [taskId]; likewise for [fileId]; and [id] is the only name turned
    into [id]. *)
Theorem identifier_spellings (k : string) :
  (toCamel k = "taskId" <-> In k taskId_names) /\
  (toCamel k = "fileId" <-> In k fileId_names) /\
  (toCamel k = "id" <-> k = "id").
Proof.
  split; [apply toCamel_taskId|]. split; [apply toCamel_fileId|].
  now apply toCamel_plain_iff.
Qed.

(** ** [normalizeKeys] *)

Lemma has_key_set_prop (k k' : string) (v : value) (o : object) :
  has_key k (set_prop k' v o) = (k =? k')%string || has_key k o.
Proof.
  induction o as [|[k1 v1] o IH]; simpl.
  - now rewrite orb_false_r.
  - destruct (String.eqb_spec k' k1) as [->|Hne]; simpl.
    + now destruct (k =? k1)%string.
    + rewrite IH. destruct (k =? k')%string, (k =? k1)%string; reflexivity.
Qed.

Lemma set_prop_distinct (k : string) (v : value) (o : object) :
  distinct_keys o = true -> distinct_keys (set_prop k v o) = true.
Proof.
  induction o as [|[k1 v1] o IH]; simpl; [reflexivity|].
  intros H. apply andb_true_iff in H. destruct H as [H1 H2].
  destruct (String.eqb_spec k k1) as [E|Hne]; simpl.
  - subst. apply andb_true_iff. now split.
  - rewrite (IH H2), has_key_set_prop.
    apply String.eqb_neq in Hne. rewrite String.eqb_sym in Hne.
    rewrite Hne. cbn [orb]. now rewrite H1.
Qed.

Lemma fold_set_prop_distinct (es : list (string * value)) (o : object) :
  distinct_keys o = true ->
  distinct_keys (fold_left (fun o kv => set_prop (fst kv) (snd kv) o) es o) = true.
Proof.
  revert o. induction es as [|[k v] es IH]; intros o H; simpl; [exact H|].
  apply IH. now apply set_prop_distinct.
Qed.

Lemma has_key_fold (k : string) (es : list (string * value)) (o : object) :
  has_key k (fold_left (fun o kv => set_prop (fst kv) (snd kv) o) es o) =
  has_key k es || has_key k o.
Proof.
  revert o. induction es as [|[k1 v1] es IH]; intros o; simpl; [reflexivity|].
  rewrite IH, has_key_set_prop.
  destruct (k =? k1)%string, (has_key k es), (has_key k o); reflexivity.
Qed.

Lemma has_key_map_camel (K : string) (es : list (string * value)) :
  has_key K (map (fun kv => (toCamel (fst kv), snd kv)) es) = true <->
  exists k, has_key k es = true /\ toCamel k = K.
Proof.
  induction es as [|[k1 v1] es IH]; simpl.
  - split; [discriminate|]. intros (k & H & _). discriminate.
  - rewrite orb_true_iff, IH. split.
    + intros [H|(k & H1 & H2)].
      * apply String.eqb_eq in H. exists k1. now rewrite String.eqb_refl.
      * exists k. rewrite H1. now rewrite orb_true_r.
    + intros (k & H1 & H2). apply orb_true_iff in H1. destruct H1 as [H1|H1].
      * apply String.eqb_eq in H1. subst k. left. apply String.eqb_eq. now symmetry.
      * right. now exists k.
Qed.

(** X3: the keys of a normalized object are distinct, and they are the
    camel-cased keys of the payload: none is lost and none is made up. *)
Theorem normalizeKeys_keys (raw : value) (K : string) :
  distinct_keys (normalizeKeys raw) = true /\
  (has_key K (normalizeKeys raw) = true <->
   exists k, has_key k (entries raw) = true /\ toCamel k = K).
Proof.
  unfold normalizeKeys, fromEntries. split.
  - now apply fold_set_prop_distinct.
  - rewrite has_key_fold. simpl. rewrite orb_false_r, has_key_map_camel.
    destruct raw; simpl; try tauto;
      split; intros (k & H & _); discriminate.
Qed.

(** X4: when several keys of the payload are turned into the same name, the
    normalized object holds the value of the last of them in the order of
    [Object.entries]: the array indices first, then the other keys as the
    payload has them.  So for a name that is no array index, [taskId] for
    one, the last of its spellings in the payload wins. *)
Theorem normalizeKeys_last_wins (before after : object) (k K : string) (v : value) :
  toCamel k = K ->
  (forall k', has_key k' after = true -> toCamel k' <> K) ->
  (forall raw, entries raw = (before ++ (k, v) :: after)%list ->
     lookup K (normalizeKeys raw) = v) /\
  (is_index K = false ->
     lookup K (normalizeKeys (VObj (before ++ (k, v) :: after))) = v).
Proof.
  intros Hk Hafter.
  assert (Hlast : last_entry K (map (fun kv => (toCamel (fst kv), snd kv))
                                    (before ++ (k, v) :: after)) = Some v).
  { rewrite map_app, last_entry_app. cbn [map fst snd last_entry].
    rewrite last_entry_absent.
    - rewrite Hk. now rewrite String.eqb_refl.
    - destruct (has_key K (map (fun kv => (toCamel (fst kv), snd kv)) after)) eqn:E;
        [|reflexivity].
      apply has_key_map_camel in E. destruct E as (k' & H1 & H2).
      now destruct (Hafter k' H1). }
  split.
  - intros raw Hraw. unfold normalizeKeys. rewrite lookup_fromEntries.
    assert (E : entries (raw ?? VObj []) = entries raw).
    { destruct raw; try reflexivity; now destruct before. }
    now rewrite E, Hraw, Hlast.
  - intros HK. unfold normalizeKeys. cbn [coalesce nullish entries].
    now rewrite lookup_fromEntries, (last_entry_camel_own K _ HK), Hlast.
Qed.

(** X5: the spelling of the keys is immaterial: two payloads whose keys
    differ by a renaming that [toCamel] does not see are normalized to
    objects that agree at every name that is no array index, and so
    [uploadFile], [mapColumns] and [taskStatus] give the same result on
    them. *)
Theorem spelling_is_immaterial (toUpperCase : string -> string)
    (JSON_stringify : value -> string)
    (f : string -> string) (fields : object) (res1 res2 : Response) :
  (forall k, toCamel (f k) = toCamel k) ->
  ok res1 = true -> body_json res1 = Some (VObj fields) ->
  ok res2 = true -> body_json res2 = Some (VObj (rename_keys f fields)) ->
  (forall K, is_index K = false ->
     lookup K (normalizeKeys (VObj (rename_keys f fields))) =
     lookup K (normalizeKeys (VObj fields))) /\
  uploadFile JSON_stringify res2 = uploadFile JSON_stringify res1 /\
  mapColumns JSON_stringify res2 = mapColumns JSON_stringify res1 /\
  taskStatus toUpperCase JSON_stringify res2 = taskStatus toUpperCase JSON_stringify res1.
Proof.
  intros Hf Hok1 Hb1 Hok2 Hb2.
  assert (E : forall K, is_index K = false ->
            lookup K (normalizeKeys (VObj (rename_keys f fields))) =
            lookup K (normalizeKeys (VObj fields))).
  { intros K HK. unfold normalizeKeys. cbn [coalesce nullish entries].
    rewrite !lookup_fromEntries, !(last_entry_camel_own K _ HK).
    unfold rename_keys. rewrite map_map. cbn [fst snd].
    assert (Em : map (fun x => (toCamel (f (fst x)), snd x)) fields =
                 map (fun kv => (toCamel (fst kv), snd kv)) fields)
      by (apply map_ext; intros [k v]; cbn [fst snd]; now rewrite Hf).
    now rewrite Em. }
  split; [exact E|].
  unfold uploadFile, mapColumns, taskStatus, requestJson.
  rewrite Hok1, Hok2, Hb1, Hb2. cbn [negb bind].
  unfold normalizeUpload, normalizeMap, normalizeTaskStatus. cbv zeta.
  now rewrite (E "fileId" eq_refl), (E "taskId" eq_refl), (E "id" eq_refl),
    (E "meta" eq_refl), (E "state" eq_refl), (E "status" eq_refl),
    (E "ready" eq_refl), (E "successful" eq_refl), (E "result" eq_refl).
Qed.

(** ** [uploadFile] *)

Lemma numeral_not_fileId (j : nat) : ~ In (nat_to_string j) fileId_names.
Proof.
  unfold nat_to_string, fileId_names.
  destruct (Nat.to_uint j); simpl; intros H;
    repeat (destruct H as [H|H]; [discriminate|]); exact H.
Qed.

Lemma value_eq_undefined (v : value) : v = VUndefined \/ v <> VUndefined.
Proof. destruct v; (now left) || (right; discriminate). Qed.

(** The value of the normalized object at [K] when the payload spells [K] in
    one way only. *)
Lemma normalized_unique (K : string) (names : list string) (raw : value) (k : string) :
  (forall k', toCamel k' = K <-> In k' names) ->
  (forall j, ~ In (nat_to_string j) names) ->
  is_json raw = true ->
  In k names ->
  (forall k', In k' names -> k' <> k -> has_key k' (entries raw) = false) ->
  lookup K (normalizeKeys raw) = get raw k.
Proof.
  intros Hnames Hnum Hj Hk Hu.
  destruct (value_eq_undefined (lookup K (normalizeKeys raw))) as [E|E].
  - rewrite E. symmetry.
    destruct (has_key k (entries raw)) eqn:Hh; [|now apply get_absent].
    destruct raw as [| | | | | |fields]; try reflexivity.
    pose proof (is_json_distinct fields Hj) as Hd.
    cbn [get entries] in *.
    unfold normalizeKeys in E. cbn [entries coalesce nullish] in E.
    rewrite lookup_fromEntries, (last_entry_camel K k) in E.
    + rewrite last_entry_distinct, Hh in E by (now apply distinct_own_properties).
      rewrite (lookup_own_properties k fields Hd) in E.
      now symmetry.
    + now apply Hnames.
    + intros k' H1 H2. apply Hnames in H2.
      destruct (string_dec k' k) as [|Hne]; [assumption|].
      rewrite (Hu k' H2 Hne) in H1. discriminate.
  - destruct (normalized_field_source K raw E) as (k' & Hc & Hin).
    apply Hnames in Hc.
    assert (Hg : get raw k' = lookup K (normalizeKeys raw)).
    { apply (entry_get raw k' _ Hj); [|exact Hin].
      intros j Ej. apply (Hnum j). now rewrite Ej. }
    destruct (string_dec k' k) as [->|Hne]; [now symmetry|].
    rewrite (get_absent raw k' (Hu k' Hc Hne)) in Hg. now destruct E.
Qed.

Section Upload.

Variable JSON_stringify : value -> string.

Lemma uploadFile_ok (res : Response) (raw : value) :
  ok res = true -> body_json res = Some raw ->
  uploadFile JSON_stringify res = normalizeUpload raw.
Proof. intros H1 H2. unfold uploadFile, requestJson. now rewrite H1, H2. Qed.

(** X6: on a successful response, a [fileId] that [uploadFile] returns is
    the value of the payload's file id field and is never empty; the call
    throws 'Invalid upload response' when that field is absent, null or
    empty, and an [id] field is of no help. *)
Theorem uploadFile_fileId (res : Response) (raw : value) :
  ok res = true -> body_json res = Some raw -> is_json raw = true ->
  (forall r, uploadFile JSON_stringify res = Fulfilled r ->
     ToBoolean (fileId r) = true /\ fileId r <> VStr "" /\
     exists k, In k fileId_names /\ get raw k = fileId r) /\
  (forall k, In k fileId_names ->
     (forall k', In k' fileId_names -> k' <> k -> has_key k' (entries raw) = false) ->
     uploadFile JSON_stringify res =
     if ToBoolean (get raw k) then Fulfilled {| fileId := get raw k |}
     else Rejected (Error "Invalid upload response")) /\
  ((forall k, In k fileId_names -> has_key k (entries raw) = false) ->
     uploadFile JSON_stringify res = Rejected (Error "Invalid upload response")).
Proof.
  intros Hok Hb Hj. rewrite (uploadFile_ok res raw Hok Hb).
  unfold normalizeUpload. cbv zeta.
  assert (Huniq : forall k, In k fileId_names ->
            (forall k', In k' fileId_names -> k' <> k -> has_key k' (entries raw) = false) ->
            lookup "fileId" (normalizeKeys raw) = get raw k).
  { intros k Hk Hu.
    apply (normalized_unique "fileId" fileId_names raw k);
      auto using toCamel_fileId, numeral_not_fileId. }
  split; [|split].
  - intros r Hr.
    destruct (ToBoolean (lookup "fileId" (normalizeKeys raw))) eqn:Et;
      [|discriminate].
    simpl in Hr. injection Hr as <-. cbn [fileId].
    split; [exact Et|]. split; [intros E; rewrite E in Et; discriminate|].
    assert (Hu : lookup "fileId" (normalizeKeys raw) <> VUndefined)
      by (intros E; rewrite E in Et; discriminate).
    destruct (normalized_field_source "fileId" raw Hu) as (k & Hc & Hin).
    apply toCamel_fileId in Hc. exists k. split; [exact Hc|].
    apply (entry_get raw k _ Hj); [|exact Hin].
    intros j Ej. apply (numeral_not_fileId j). now rewrite Ej.
  - intros k Hk Hu. rewrite (Huniq k Hk Hu).
    now destruct (ToBoolean (get raw k)).
  - intros Hn.
    rewrite (Huniq "fileId") by (simpl; auto).
    now rewrite (get_absent raw "fileId") by (apply Hn; simpl; auto).
Qed.

End Upload.

(** ** What an endpoint can throw *)

Lemma string_append_assoc (a b c : string) : ((a ++ b) ++ c = a ++ (b ++ c))%string.
Proof. induction a as [|x a IH]; simpl; [reflexivity|now rewrite IH]. Qed.

Section Failures.

Variable toUpperCase : string -> string.
Variable StringToNumber : string -> number.
Variable NumberToString : number -> string.
Variable JSON_stringify : value -> string.

Local Abbreviation salarySummary' :=
  (salarySummary StringToNumber NumberToString JSON_stringify).
Local Abbreviation stackCompare' :=
  (stackCompare StringToNumber NumberToString JSON_stringify).

(** [salarySummary] throws when one of the four values it converts has no
    string, and then only. *)
Lemma salarySummary_outcome (res : Response) (raw : value) :
  ok res = true -> body_json res = Some raw ->
  (existsb unconvertible
     [get (summary_container raw) "p50" ?? get (summary_container raw) "median";
      get (summary_container raw) "p75";
      get (summary_container raw) "p90";
      get (summary_container raw) "n" ?? get (summary_container raw) "count"] = true ->
   salarySummary' res = Rejected TypeError) /\
  (existsb unconvertible
     [get (summary_container raw) "p50" ?? get (summary_container raw) "median";
      get (summary_container raw) "p75";
      get (summary_container raw) "p90";
      get (summary_container raw) "n" ?? get (summary_container raw) "count"] = false ->
   exists r, salarySummary' res = Fulfilled r).
Proof.
  intros Hok Hb. split;
    [|now apply (salarySummary_returns StringToNumber NumberToString JSON_stringify)].
  rewrite (salarySummary_ok StringToNumber NumberToString JSON_stringify res raw Hok Hb).
  cbn [existsb]. rewrite orb_false_r.
  pose proof (fun v => num_cases StringToNumber NumberToString v (num_of_Z 0)) as C.
  destruct (unconvertible (_ ?? _)) eqn:E1;
    [intros _; now rewrite (proj1 (C _) E1)|].
  destruct (proj2 (C _) E1) as [a ->]. cbn [orb bind].
  destruct (unconvertible (get _ "p75")) eqn:E2;
    [intros _; now rewrite (proj1 (C _) E2)|].
  destruct (proj2 (C _) E2) as [b ->]. cbn [orb bind].
  destruct (unconvertible (get _ "p90")) eqn:E3;
    [intros _; now rewrite (proj1 (C _) E3)|].
  destruct (proj2 (C _) E3) as [c ->]. cbn [orb bind].
  intros E4. now rewrite (proj1 (C _) E4).
Qed.

Lemma salarySummary_rejects (res : Response) (raw : value) (e : error) :
  ok res = true -> body_json res = Some raw ->
  salarySummary' res = Rejected e -> e = TypeError.
Proof.
  intros Hok Hb H. destruct (salarySummary_outcome res raw Hok Hb) as [H1 H2].
  destruct (existsb unconvertible _).
  - rewrite (H1 eq_refl) in H. now injection H.
  - destruct (H2 eq_refl) as [r Hr]. rewrite Hr in H. discriminate.
Qed.

Lemma stackCompare_rejects (res : Response) (raw : value) (e : error) :
  ok res = true -> body_json res = Some raw ->
  stackCompare' res = Rejected e ->
  e = TypeError /\
  exists items, compare_rows raw = VArr items /\ existsb row_throws items = true.
Proof.
  intros Hok Hb.
  rewrite (stackCompare_ok StringToNumber NumberToString JSON_stringify res raw Hok Hb).
  destruct (compare_rows raw); try discriminate.
  intros H. apply traverse_stackRow_rejects in H. destruct H as [-> H].
  split; [reflexivity|]. now exists items.
Qed.

(** X7: on a response whose status is 2xx, an endpoint function throws a
    [SyntaxError] exactly when the body is not JSON; the content type is not
    looked at. *)
Theorem syntax_error_iff_not_json (res : Response) :
  ok res = true ->
  (uploadFile JSON_stringify res = Rejected SyntaxError <-> body_json res = None) /\
  (mapColumns JSON_stringify res = Rejected SyntaxError <-> body_json res = None) /\
  (taskStatus toUpperCase JSON_stringify res = Rejected SyntaxError <-> body_json res = None) /\
  (salarySummary' res = Rejected SyntaxError <-> body_json res = None) /\
  (stackCompare' res = Rejected SyntaxError <-> body_json res = None).
Proof.
  intros Hok.
  destruct (body_json res) as [raw|] eqn:Hb.
  - pose proof (salarySummary_rejects res raw SyntaxError Hok Hb) as Hs.
    pose proof (stackCompare_rejects res raw SyntaxError Hok Hb) as Hc.
    unfold uploadFile, mapColumns, taskStatus, requestJson.
    rewrite Hok, Hb. cbn [negb bind].
    repeat split; try discriminate.
    + unfold normalizeUpload. now destruct (negb _).
    + unfold normalizeMap. now destruct (negb _).
    + unfold normalizeTaskStatus. now destruct (_ ?? _).
    + intros H. now apply Hs in H.
    + intros H. now apply Hc in H.
  - unfold uploadFile, mapColumns, taskStatus, salarySummary, stackCompare,
      requestJson.
    rewrite Hok, Hb. cbn [negb bind]. repeat split; intros; reflexivity.
Qed.

(** X8: an [ApiError] is thrown for a failed response only: when an endpoint
    function throws one, the status of the response is not 2xx, and the error
    holds that status and the payload of the response. *)
Theorem ApiError_only_when_failed (res : Response) (msg : string) (st : nat)
    (payload : value) :
  uploadFile JSON_stringify res = Rejected (ApiError msg st payload) \/
  mapColumns JSON_stringify res = Rejected (ApiError msg st payload) \/
  taskStatus toUpperCase JSON_stringify res = Rejected (ApiError msg st payload) \/
  salarySummary' res = Rejected (ApiError msg st payload) \/
  stackCompare' res = Rejected (ApiError msg st payload) ->
  ~ (200 <= status res <= 299)%nat /\
  st = status res /\
  payload = error_payload res /\
  msg = error_message JSON_stringify res.
Proof.
  destruct (ok res) eqn:Hok.
  - intros H. exfalso.
    destruct (body_json res) as [raw|] eqn:Hb.
    + pose proof (salarySummary_rejects res raw (ApiError msg st payload) Hok Hb) as Hs.
      pose proof (stackCompare_rejects res raw (ApiError msg st payload) Hok Hb) as Hc.
      unfold uploadFile, mapColumns, taskStatus, requestJson in H.
      rewrite Hok, Hb in H. cbn [negb bind] in H.
      destruct H as [H|[H|[H|[H|H]]]].
      * unfold normalizeUpload in H. now destruct (negb _).
      * unfold normalizeMap in H. now destruct (negb _).
      * unfold normalizeTaskStatus in H. now destruct (_ ?? _).
      * now apply Hs in H.
      * apply Hc in H. now destruct H.
    + unfold uploadFile, mapColumns, taskStatus, salarySummary, stackCompare,
        requestJson in H.
      rewrite Hok, Hb in H. cbn [negb bind] in H.
      destruct H as [H|[H|[H|[H|H]]]]; discriminate.
  - unfold uploadFile, mapColumns, taskStatus, salarySummary, stackCompare,
      requestJson.
    rewrite Hok. cbn [negb bind]. intros H.
    assert (E : ApiError (error_message JSON_stringify res) (status res)
                  (error_payload res) = ApiError msg st payload)
      by (destruct H as [H|[H|[H|[H|H]]]]; congruence).
    injection E as <- <- <-. repeat split.
    unfold ok in Hok. intros [H1 H2].
    apply Nat.leb_le in H1, H2. rewrite H1, H2 in Hok. discriminate.
Qed.

(** X9: the message of an [ApiError] is [[status] statusText], followed by
    [ - detail] when there is a detail: the [detail] string of a JSON body
    that is an object, the whole body through [JSON.stringify] when that
    object has no [detail] that is a string, or the text of a body that is
    not announced as JSON.  A detail that is empty adds nothing. *)
Theorem error_message_detail (res : Response) :
  (forall fields d,
     isJson res = true -> body_json res = Some (VObj fields) ->
     lookup "detail" fields = VStr d ->
     error_message JSON_stringify res = message_head res ++ message_tail d) /\
  (forall fields,
     isJson res = true -> body_json res = Some (VObj fields) ->
     is_string (lookup "detail" fields) = false ->
     error_message JSON_stringify res =
     message_head res ++ message_tail (JSON_stringify (VObj fields))) /\
  (isJson res = false ->
     error_message JSON_stringify res = message_head res ++ message_tail (body_text res)).
Proof.
  unfold error_message, error_payload, message_head, message_tail.
  split; [|split].
  - intros fields d -> -> Hd. simpl.
    assert (Hk : has_key "detail" fields = true).
    { destruct (has_key "detail" fields) eqn:E; [reflexivity|].
      rewrite (lookup_absent _ _ E) in Hd. discriminate. }
    rewrite Hk, Hd. simpl. now rewrite !string_append_assoc.
  - intros fields -> -> Hd. simpl.
    assert (E : (if has_key "detail" fields
                 then match lookup "detail" fields with
                      | VStr d => d
                      | _ => JSON_stringify (VObj fields)
                      end
                 else JSON_stringify (VObj fields)) = JSON_stringify (VObj fields)).
    { destruct (has_key "detail" fields); [|reflexivity].
      now destruct (lookup "detail" fields). }
    rewrite E. simpl. now rewrite !string_append_assoc.
  - intros ->. simpl. now rewrite !string_append_assoc.
Qed.

End Failures.

(** ** The content type *)

Lemma prefix_append (sub s : string) :
  String.prefix sub s = true <-> exists b, s = sub ++ b.
Proof.
  revert s. induction sub as [|c sub IH]; intros s.
  - split; [intros _; now exists s|intros _; now destruct s].
  - destruct s as [|c' s]; simpl.
    + split; [discriminate|intros (b & H); discriminate].
    + destruct (Ascii.ascii_dec c c') as [->|Hne].
      * rewrite IH. split; intros (b & H); exists b; [now rewrite H|].
        now injection H.
      * split; [discriminate|]. intros (b & H). injection H as H _.
        now destruct Hne.
Qed.

Lemma includes_substring (s sub : string) :
  includes s sub = true <-> exists a b, s = a ++ sub ++ b.
Proof.
  induction s as [|c s IH].
  - change (includes "" sub) with (String.prefix sub "" || false).
    rewrite orb_false_r, prefix_append. split.
    + intros (b & H). now exists "", b.
    + intros ([|c a] & b & H); [now exists b|discriminate].
  - change (includes (String c s) sub)
      with (String.prefix sub (String c s) || includes s sub).
    rewrite orb_true_iff, prefix_append, IH. split.
    + intros [(b & H)|(a & b & H)].
      * now exists "", b.
      * exists (String c a), b. simpl. now rewrite H.
    + intros ([|c' a] & b & H).
      * left. now exists b.
      * right. simpl in H. injection H as _ H. now exists a, b.
Qed.

(** X10: the body of a failed response is read as JSON exactly when its
    content type holds [application/json] somewhere, in that very case;
    parameters around it, such as a charset, do not matter, and a response
    without a content type is read as text. *)
Theorem isJson_iff (res : Response) :
  isJson res = true <->
  exists ct a b, content_type res = Some ct /\ ct = a ++ "application/json" ++ b.
Proof.
  unfold isJson. rewrite includes_substring.
  destruct (content_type res) as [ct|].
  - split.
    + intros (a & b & H). now exists ct, a, b.
    + intros (ct' & a & b & H1 & H2). injection H1 as <-. now exists a, b.
  - split.
    + intros ([|c a] & b & H); discriminate.
    + intros (ct & a & b & H & _). discriminate.
Qed.

(** ** More on [taskStatus] *)

Lemma has_key_lookup (k : string) (o : object) :
  lookup k o <> VUndefined -> has_key k o = true.
Proof.
  intros H. destruct (has_key k o) eqn:E; [reflexivity|].
  now rewrite (lookup_absent k o E) in H.
Qed.

Lemma length_set_prop (k : string) (v : value) (o : object) :
  List.length (set_prop k v o) =
  if has_key k o then List.length o else S (List.length o).
Proof.
  induction o as [|[k1 v1] o IH]; [reflexivity|].
  simpl. destruct (k =? k1)%string; simpl; [reflexivity|].
  rewrite IH. now destruct (has_key k o).
Qed.

Section TaskStatusMore.

Variable toUpperCase : string -> string.
Variable JSON_stringify : value -> string.

(** X11: on a successful response, [taskStatus] throws exactly when the
    payload's [state] (or, when that is absent or null, its [status]) is
    there and is not a string, and what it throws is a [TypeError]. *)
Theorem taskStatus_rejects_iff (res : Response) (raw : value) :
  ok res = true -> body_json res = Some raw -> is_json raw = true ->
  (taskStatus toUpperCase JSON_stringify res = Rejected TypeError <->
   is_string (get raw "state" ?? get raw "status" ?? VStr "PENDING") = false) /\
  (forall e, taskStatus toUpperCase JSON_stringify res = Rejected e -> e = TypeError).
Proof.
  intros Hok Hb Hj.
  rewrite (taskStatus_ok toUpperCase JSON_stringify res raw Hok Hb),
    (normalizeTaskStatus_json toUpperCase raw Hj).
  destruct (get raw "state" ?? get raw "status" ?? VStr "PENDING");
    simpl; (split; [split; (reflexivity || discriminate)|]);
    intros e H; congruence.
Qed.

(** X12: the [id] that [taskStatus] returns is never null or undefined: it
    is the payload's task id, its [id] when there is no task id, and the
    empty string when there is neither; an empty id is returned, not
    refused. *)
Theorem taskStatus_id (res : Response) (raw : value) (r : TaskStatusResp) :
  ok res = true -> body_json res = Some raw -> is_json raw = true ->
  taskStatus toUpperCase JSON_stringify res = Fulfilled r ->
  nullish (ts_id r) = false /\
  (forall k, In k taskId_names ->
     (forall k', In k' taskId_names -> k' <> k -> has_key k' (entries raw) = false) ->
     nullish (get raw k) = false -> ts_id r = get raw k) /\
  ((forall k, In k taskId_names -> nullish (get raw k) = true) ->
     ts_id r = get raw "id" ?? VStr "").
Proof.
  intros Hok Hb Hj Hr.
  rewrite (taskStatus_ok toUpperCase JSON_stringify res raw Hok Hb),
    (normalizeTaskStatus_json toUpperCase raw Hj) in Hr.
  destruct (get raw "state" ?? get raw "status" ?? VStr "PENDING");
    try discriminate.
  injection Hr as <-. cbn [ts_id]. split; [|split].
  - unfold coalesce.
    destruct (nullish (lookup "taskId" (normalizeKeys raw))) eqn:E1; [|exact E1].
    now destruct (nullish (get raw "id")) eqn:E2.
  - intros k Hk Hu Hv.
    rewrite (normalized_taskId_unique raw k Hj Hk Hu Hv).
    unfold coalesce. now rewrite Hv.
  - intros Hn. unfold coalesce at 1.
    now rewrite (normalized_taskId_nullish raw Hj Hn).
Qed.

(** X13: only [percent] is touched in [meta]: every other field of the
    payload's [meta] is returned under its own name and with its own value
    (the keys of [meta] are not camel-cased), no field is added but
    [percent], and [result] is the payload's [result]. *)
Theorem taskStatus_meta_preserved (res : Response) (raw : value) (mf : object)
    (r : TaskStatusResp) :
  ok res = true -> body_json res = Some raw -> is_json raw = true ->
  get raw "meta" = VObj mf ->
  taskStatus toUpperCase JSON_stringify res = Fulfilled r ->
  ts_result r = get raw "result" /\
  exists m, ts_meta r = Some m /\
    (forall k, k <> "percent" -> lookup k m = lookup k mf) /\
    (forall k, has_key k m = (k =? "percent")%string || has_key k mf) /\
    List.length m = (if has_key "percent" mf then List.length mf
                     else S (List.length mf)).
Proof.
  intros Hok Hb Hj Hm Hr.
  rewrite (taskStatus_ok toUpperCase JSON_stringify res raw Hok Hb),
    (normalizeTaskStatus_json toUpperCase raw Hj) in Hr.
  destruct (get raw "state" ?? get raw "status" ?? VStr "PENDING");
    try discriminate.
  injection Hr as <-. cbn [ts_result ts_meta]. split; [reflexivity|].
  assert (Hd : distinct_keys mf = true).
  { destruct raw as [| | | | | |fields]; try discriminate. simpl in Hm.
    destruct (is_json_lookup "meta" fields Hj) as [E|E].
    - rewrite E in Hm. discriminate.
    - rewrite Hm in E. now apply is_json_distinct. }
  rewrite Hm. cbn [ToBoolean entries]. eexists. split; [reflexivity|].
  split; [|split].
  - intros k Hk. rewrite lookup_set_prop.
    apply String.eqb_neq in Hk. rewrite Hk. now apply lookup_own_properties.
  - intros k. now rewrite has_key_set_prop, has_key_own_properties.
  - now rewrite length_set_prop, has_key_own_properties, length_own_properties.
Qed.

End TaskStatusMore.

(** ** The clamp of [percent] *)

Lemma round_half_up_Z (k : Z) : round_half_up (inject_Z k) = k.
Proof.
  unfold round_half_up, Qfloor, inject_Z, Qplus. simpl.
  symmetry. apply (Z.div_unique _ _ _ 1); lia.
Qed.

Lemma clamp_percent_Z (k : Z) :
  clamp_percent (num_of_Z k) = num_of_Z (Z.max 0 (Z.min 100 k)).
Proof.
  unfold num_of_Z at 1. now rewrite clamp_percent_Fin, round_half_up_Z.
Qed.

(** X14: the clamp is a projection: clamping twice is clamping once, and an
    integer between 0 and 100 is left as it is. *)
Theorem clamp_percent_stable (p : number) :
  clamp_percent (clamp_percent p) = clamp_percent p /\
  (forall k, 0 <= k <= 100 -> p = num_of_Z k -> clamp_percent p = p).
Proof.
  split.
  - destruct p as [| | |q]; try reflexivity.
    rewrite clamp_percent_Fin, clamp_percent_Z. f_equal. lia.
  - intros k Hk ->. rewrite clamp_percent_Z. f_equal. lia.
Qed.

Lemma num_leb_Z (a b : Z) : num_leb (num_of_Z a) (num_of_Z b) = (a <=? b).
Proof. unfold num_leb, num_of_Z. apply Qle_bool_inject_Z. Qed.

Lemma round_half_up_monotone (x y : Q) :
  (x <= y)%Q -> round_half_up x <= round_half_up y.
Proof.
  intros H. unfold round_half_up. apply Qfloor_resp_le. lra.
Qed.

(** X15: the clamp keeps the order: a payload whose [percent] does not go
    down is returned with a [percent] that does not go down. *)
Theorem clamp_percent_monotone (p q : number) :
  num_leb p q = true -> num_leb (clamp_percent p) (clamp_percent q) = true.
Proof.
  intros H.
  assert (Hp : p <> NaN) by (intros ->; discriminate).
  assert (Hq : q <> NaN) by (intros ->; now destruct p).
  destruct (clamp_percent_spec p Hp) as (a & -> & Ha & Sa).
  destruct (clamp_percent_spec q Hq) as (b & -> & Hb & Sb).
  rewrite num_leb_Z. apply Z.leb_le.
  destruct p as [| | |x], q as [| | |y]; simpl in *; try discriminate;
    try contradiction; try lia.
  apply Qle_bool_iff in H. apply round_half_up_monotone in H. lia.
Qed.

(** ** More on [salarySummary] and [stackCompare] *)

Section Summaries.

Variable StringToNumber : string -> number.
Variable NumberToString : number -> string.
Variable JSON_stringify : value -> string.

Local Abbreviation num' := (num StringToNumber NumberToString).
Local Abbreviation ToNumber' := (ToNumber StringToNumber NumberToString).
Local Abbreviation salarySummary' :=
  (salarySummary StringToNumber NumberToString JSON_stringify).
Local Abbreviation stackCompare' :=
  (stackCompare StringToNumber NumberToString JSON_stringify).
Local Abbreviation stackRow' := (stackRow StringToNumber NumberToString).
Local Abbreviation rule' := (row_number_rule ToNumber').

(** X16: when the payload has a [data] that is not null, the summary is read
    from [data] alone: the fields beside it are ignored, also those [data]
    lacks. *)
Theorem salarySummary_data_only (res1 res2 : Response) (w1 w2 : object) :
  ok res1 = true -> body_json res1 = Some (VObj w1) ->
  ok res2 = true -> body_json res2 = Some (VObj w2) ->
  lookup "data" w1 = lookup "data" w2 ->
  nullish (lookup "data" w1) = false ->
  salarySummary' res1 = salarySummary' res2.
Proof.
  intros Hok1 Hb1 Hok2 Hb2 Hd Hn.
  rewrite (salarySummary_ok _ _ _ res1 _ Hok1 Hb1),
    (salarySummary_ok _ _ _ res2 _ Hok2 Hb2).
  assert (E : summary_container (VObj w1) = summary_container (VObj w2)).
  { unfold summary_container. simpl. rewrite <- Hd. unfold coalesce at 1 3.
    now rewrite Hn. }
  now rewrite E.
Qed.

(** X17: on a successful JSON response [salarySummary] throws exactly when
    one of the four values it converts ([p50], or [median] in its place,
    [p75], [p90], and [n], or [count] in its place) is an object with a
    [toString] property or an array that holds one, and what it throws is a
    [TypeError]; a payload that is not an object (null, an array, a number,
    a string) gives the summary whose four fields are 0. *)
Theorem salarySummary_rejects_iff (res : Response) (raw : value) :
  ok res = true -> body_json res = Some raw ->
  let c := summary_container raw in
  (forall e, salarySummary' res = Rejected e -> e = TypeError) /\
  (salarySummary' res = Rejected TypeError <->
   existsb unconvertible
     [get c "p50" ?? get c "median"; get c "p75"; get c "p90";
      get c "n" ?? get c "count"] = true) /\
  ((forall fields, raw <> VObj fields) -> salarySummary' res = Fulfilled zero_summary).
Proof.
  intros Hok Hb. cbv zeta.
  destruct (salarySummary_outcome StringToNumber NumberToString JSON_stringify
              res raw Hok Hb) as [H1 H2].
  split; [|split].
  - intros e.
    apply (salarySummary_rejects StringToNumber NumberToString JSON_stringify res raw
             e Hok Hb).
  - split; [|exact H1].
    intros H. destruct (existsb unconvertible _); [reflexivity|].
    destruct (H2 eq_refl) as [r Hr]. rewrite Hr in H. discriminate.
  - intros Hn. rewrite (salarySummary_ok _ _ _ res raw Hok Hb).
    destruct raw; try reflexivity. now destruct (Hn fields).
Qed.

(** X18: a string [p50] beside a numeric [median] is read differently by the
    two endpoints: the summary that [salarySummary] returns holds the
    conversion of the string, since [p50] is there, whereas the row that
    [stackCompare] returns holds the [median], since it is the one that is a
    number; the two differ whenever the string does not convert to the
    [median].  Each endpoint returns when none of the other fields it
    converts is a value that has no string. *)
Theorem string_p50_numeric_median (res1 res2 : Response) (fields : object)
    (s : string) (m : number) :
  ok res1 = true -> body_json res1 = Some (VObj fields) ->
  ok res2 = true -> body_json res2 = Some (VArr [VObj fields]) ->
  nullish (lookup "data" fields) = true ->
  lookup "p50" fields = VStr s -> lookup "median" fields = VNum m ->
  (forall r, salarySummary' res1 = Fulfilled r -> sum_p50 r = StringToNumber s) /\
  (forall rows, stackCompare' res2 = Fulfilled rows ->
     exists row, rows = [row] /\ row_p50 row = m) /\
  (StringToNumber s <> m ->
   forall r rows, salarySummary' res1 = Fulfilled r ->
     stackCompare' res2 = Fulfilled rows ->
     forall row, In row rows -> row_p50 row <> sum_p50 r) /\
  (existsb unconvertible
     [lookup "p75" fields; lookup "p90" fields;
      lookup "n" fields ?? lookup "count" fields] = false ->
   exists r, salarySummary' res1 = Fulfilled r) /\
  (pair_throws (lookup "n" fields) (lookup "count" fields) = false ->
   exists row, stackCompare' res2 = Fulfilled [row]).
Proof.
  intros Hok1 Hb1 Hok2 Hb2 Hd Hp Hm.
  assert (E : summary_container (VObj fields) = VObj fields).
  { unfold summary_container. simpl. unfold coalesce at 1. now rewrite Hd. }
  assert (S1 : forall r, salarySummary' res1 = Fulfilled r ->
                 sum_p50 r = StringToNumber s).
  { intros r Hr.
    destruct (salarySummary_fulfilled _ _ _ res1 _ r Hok1 Hb1 Hr) as (H1 & _).
    rewrite E in H1. cbn [get] in H1. rewrite Hp in H1. now injection H1. }
  assert (S2 : forall rows, stackCompare' res2 = Fulfilled rows ->
                 exists row, rows = [row] /\ row_p50 row = m).
  { intros rows Hr.
    rewrite (stackCompare_ok _ _ _ res2 _ Hok2 Hb2) in Hr.
    change (compare_rows (VArr [VObj fields])) with (VArr [VObj fields]) in Hr.
    apply traverse_Forall2 in Hr.
    inversion Hr as [|item row items rows' Hrow Hrest]; subst.
    inversion Hrest; subst. exists row. split; [reflexivity|].
    destruct (stackRow_fields StringToNumber NumberToString _ row Hrow)
      as (_ & _ & Rp & _).
    cbn [get] in Rp. now rewrite Hp, Hm in Rp. }
  split; [exact S1|]. split; [exact S2|]. split; [|split].
  - intros Hne r rows Hr Hrows row Hin.
    destruct (S2 rows Hrows) as (row' & -> & Em).
    destruct Hin as [<-|[]]. rewrite Em, (S1 r Hr). congruence.
  - intros Hu.
    apply (salarySummary_returns _ _ _ res1 (VObj fields) Hok1 Hb1).
    rewrite E. cbn [get existsb] in *. now rewrite Hp.
  - intros Hn.
    rewrite (stackCompare_ok _ _ _ res2 _ Hok2 Hb2).
    change (compare_rows (VArr [VObj fields])) with (VArr [VObj fields]).
    cbn [traverse].
    destruct (proj2 (stackRow_cases StringToNumber NumberToString (VObj fields)))
      as (row & Hrow & _).
    + unfold row_throws. cbn [nullish get]. rewrite Hn.
      unfold pair_throws. rewrite Hp, Hm. reflexivity.
    + exists row. now rewrite Hrow.
Qed.

(** X19: the rows that [stackCompare] returns are the rows of the payload,
    in its order and one for each element; the name of a row is its [stack],
    else its [tech], else a dash, and its numbers follow one rule for
    [p50]/[median] and for [n]/[count]: a field that is a number wins, then
    an alias that is a number, then the conversion of whichever is there, 0
    when none is.  The rows are returned when no element is [null] and no
    field that is converted is a value that has no string. *)
Theorem stackCompare_row_numbers (res : Response) (raw : value) (items : list value) :
  ok res = true -> body_json res = Some raw ->
  compare_rows raw = VArr items ->
  (forall rows, stackCompare' res = Fulfilled rows ->
     Forall2 (fun item row =>
                row_stack row = row_stack_rule item /\
                rule' (get item "p50") (get item "median") (row_p50 row) /\
                rule' (get item "n") (get item "count") (row_n row))
             items rows) /\
  (existsb row_throws items = false -> exists rows, stackCompare' res = Fulfilled rows).
Proof.
  intros Hok Hb Hc. rewrite (stackCompare_ok _ _ _ res raw Hok Hb), Hc. split.
  - intros rows Hr. apply traverse_Forall2 in Hr.
    refine (Forall2_impl _ _ Hr). intros item row Hrow.
    now destruct (stackRow_fields StringToNumber NumberToString item row Hrow)
      as (_ & H).
  - apply traverse_stackRow.
Qed.

(** X20: on a successful response, [stackCompare] throws exactly when a row
    makes the callback throw: the row is [null], or a field that has to be
    converted to a number is an object with a [toString] property or an
    array that holds one; what it throws is a [TypeError]; a payload without
    an array of rows is never refused: it gives no row. *)
Theorem stackCompare_rejects_iff (res : Response) (raw : value) :
  ok res = true -> body_json res = Some raw ->
  (forall e, stackCompare' res = Rejected e ->
     e = TypeError /\
     exists items, compare_rows raw = VArr items /\ existsb row_throws items = true) /\
  (forall items, compare_rows raw = VArr items -> existsb row_throws items = true ->
     stackCompare' res = Rejected TypeError) /\
  (forall items, compare_rows raw = VArr items -> existsb nullish items = true ->
     stackCompare' res = Rejected TypeError) /\
  (isArray (compare_rows raw) = false -> stackCompare' res = Fulfilled []).
Proof.
  intros Hok Hb.
  assert (Hthrow : forall items, compare_rows raw = VArr items ->
            existsb row_throws items = true -> stackCompare' res = Rejected TypeError).
  { intros items Hc H. rewrite (stackCompare_ok _ _ _ res raw Hok Hb), Hc.
    now apply traverse_stackRow. }
  split; [|split; [exact Hthrow|split]].
  - intros e. apply (stackCompare_rejects _ _ _ res raw e Hok Hb).
  - intros items Hc H. apply (Hthrow items Hc).
    apply existsb_exists in H. destruct H as (x & Hin & Hx).
    apply existsb_exists. exists x. split; [exact Hin|].
    unfold row_throws. now rewrite Hx.
  - rewrite (stackCompare_ok _ _ _ res raw Hok Hb). now destruct (compare_rows raw).
Qed.

End Summaries.

(** ** The further properties at the sample responses *)

Lemma normalizeKeys_last_wins_witness :
  toCamel "_1" = "1" /\
  entries Sample.index_payload = ([("1", VStr "b")] ++ ("_1", VStr "a") :: [])%list /\
  lookup "1" (normalizeKeys Sample.index_payload) = VStr "a".
Proof.
  repeat (split; [reflexivity|]).
  apply (proj1 (normalizeKeys_last_wins [("1", VStr "b")] [] "_1" "1" (VStr "a")
                  eq_refl (fun k' H => False_ind _ (Bool.diff_false_true H)))
               Sample.index_payload eq_refl).
Defined.

Lemma spelling_is_immaterial_witness :
  ok Sample.task1_response = true /\
  ok Sample.task1_camel_response = true /\
  mapColumns Sample.JSON_stringify Sample.task1_camel_response =
  mapColumns Sample.JSON_stringify Sample.task1_response.
Proof.
  repeat (split; [reflexivity|]).
  refine (proj1 (proj2 (proj2
    (spelling_is_immaterial Sample.toUpperCase Sample.JSON_stringify
       Sample.snake_to_camel
       [("task_id", VStr "task-1")] Sample.task1_response
       Sample.task1_camel_response _ eq_refl eq_refl eq_refl eq_refl)))).
  intros k. unfold Sample.snake_to_camel.
  destruct (String.eqb_spec k "task_id") as [->|]; reflexivity.
Defined.

Lemma uploadFile_fileId_witness :
  ok Sample.upload_response = true /\
  body_json Sample.upload_response = Some Sample.upload_payload /\
  is_json Sample.upload_payload = true /\
  uploadFile Sample.JSON_stringify Sample.upload_response =
    Fulfilled {| fileId := VStr "file-123" |}.
Proof.
  repeat (split; [reflexivity|]).
  apply (proj1 (proj2 (uploadFile_fileId Sample.JSON_stringify
                         Sample.upload_response Sample.upload_payload
                         eq_refl eq_refl eq_refl)) "file_id").
  - simpl. auto.
  - intros k' Hk Hne. simpl in Hk.
    destruct Hk as [<-|[<-|[<-|[<-|[<-|[]]]]]]; try reflexivity.
    now destruct Hne.
Defined.

Lemma syntax_error_iff_not_json_witness :
  ok Sample.page_response = true /\
  body_json Sample.page_response = None /\
  taskStatus Sample.toUpperCase Sample.JSON_stringify Sample.page_response = Rejected SyntaxError.
Proof.
  repeat (split; [reflexivity|]).
  apply (proj1 (proj2 (proj2
    (syntax_error_iff_not_json Sample.toUpperCase Sample.StringToNumber Sample.NumberToString
       Sample.JSON_stringify Sample.page_response eq_refl)))).
  reflexivity.
Defined.

Lemma ApiError_only_when_failed_witness :
  mapColumns Sample.JSON_stringify Sample.text_error_response =
    Rejected (ApiError "[500] Internal Server Error - boom" 500 (VStr "boom")) /\
  ~ (200 <= status Sample.text_error_response <= 299)%nat /\
  500%nat = status Sample.text_error_response.
Proof.
  split; [reflexivity|].
  pose proof (ApiError_only_when_failed Sample.toUpperCase Sample.StringToNumber Sample.NumberToString
                Sample.JSON_stringify Sample.text_error_response
                "[500] Internal Server Error - boom" 500 (VStr "boom")
                (or_intror (or_introl eq_refl))) as (H1 & H2 & _).
  split; [exact H1|exact H2].
Defined.

Lemma error_message_detail_witness :
  isJson Sample.detail_error_response = true /\
  lookup "detail" Sample.detail_fields = VStr "invalid file" /\
  error_message Sample.JSON_stringify Sample.detail_error_response =
    "[400] Bad Request - invalid file".
Proof.
  repeat (split; [reflexivity|]).
  exact (proj1 (error_message_detail Sample.JSON_stringify Sample.detail_error_response)
               Sample.detail_fields "invalid file" eq_refl eq_refl eq_refl).
Defined.

Lemma taskStatus_rejects_iff_witness :
  ok Sample.numeric_state_response = true /\
  is_json Sample.numeric_state_payload = true /\
  taskStatus Sample.toUpperCase Sample.JSON_stringify Sample.numeric_state_response = Rejected TypeError.
Proof.
  repeat (split; [reflexivity|]).
  apply (proj1 (taskStatus_rejects_iff Sample.toUpperCase Sample.JSON_stringify
                  Sample.numeric_state_response Sample.numeric_state_payload
                  eq_refl eq_refl eq_refl)).
  reflexivity.
Defined.

Lemma taskStatus_id_witness :
  ok Sample.started_response = true /\
  is_json Sample.started_payload = true /\
  nullish (ts_id Sample.started_result) = false.
Proof.
  repeat (split; [reflexivity|]).
  exact (proj1 (taskStatus_id Sample.toUpperCase Sample.JSON_stringify Sample.started_response
                  Sample.started_payload Sample.started_result
                  eq_refl eq_refl eq_refl eq_refl)).
Defined.

Lemma taskStatus_meta_preserved_witness :
  ok Sample.started_response = true /\
  is_json Sample.started_payload = true /\
  ts_result Sample.started_result = get Sample.started_payload "result".
Proof.
  repeat (split; [reflexivity|]).
  exact (proj1 (taskStatus_meta_preserved Sample.toUpperCase Sample.JSON_stringify
                  Sample.started_response Sample.started_payload
                  [("percent", VNum (Fin 105)); ("processed", VNum (Fin 5));
                   ("total", VNum (Fin 10))]
                  Sample.started_result eq_refl eq_refl eq_refl eq_refl eq_refl)).
Defined.

Lemma clamp_percent_monotone_witness :
  num_leb (Fin (199 # 2)) (Fin 105) = true /\
  num_leb (clamp_percent (Fin (199 # 2))) (clamp_percent (Fin 105)) = true.
Proof.
  split; [reflexivity|].
  apply (clamp_percent_monotone (Fin (199 # 2)) (Fin 105)). reflexivity.
Defined.

Lemma salarySummary_data_only_witness :
  ok Sample.shadowed_response = true /\
  ok Sample.empty_data_response = true /\
  nullish (lookup "data" Sample.shadowed_summary) = false /\
  salarySummary Sample.StringToNumber Sample.NumberToString Sample.JSON_stringify
    Sample.shadowed_response =
  salarySummary Sample.StringToNumber Sample.NumberToString Sample.JSON_stringify
    Sample.empty_data_response.
Proof.
  repeat (split; [reflexivity|]).
  apply (salarySummary_data_only Sample.StringToNumber Sample.NumberToString
           Sample.JSON_stringify Sample.shadowed_response Sample.empty_data_response
           Sample.shadowed_summary [("data", VObj [])]);
    reflexivity.
Defined.

Lemma salarySummary_rejects_iff_witness :
  ok Sample.unconvertible_response = true /\
  body_json Sample.unconvertible_response = Some Sample.unconvertible_payload /\
  salarySummary Sample.StringToNumber Sample.NumberToString Sample.JSON_stringify
    Sample.unconvertible_response = Rejected TypeError.
Proof.
  repeat (split; [reflexivity|]).
  pose proof (salarySummary_rejects_iff Sample.StringToNumber Sample.NumberToString
                Sample.JSON_stringify Sample.unconvertible_response
                Sample.unconvertible_payload eq_refl eq_refl) as H.
  cbv zeta in H. destruct H as (_ & H & _). apply H. reflexivity.
Defined.

Lemma string_p50_numeric_median_witness :
  ok Sample.mixed_summary_response = true /\
  ok Sample.mixed_rows_response = true /\
  lookup "p50" Sample.mixed_fields = VStr "50" /\
  lookup "median" Sample.mixed_fields = VNum (Fin 45) /\
  Sample.StringToNumber "50" <> Fin 45 /\
  forall r rows,
    salarySummary Sample.StringToNumber Sample.NumberToString Sample.JSON_stringify
      Sample.mixed_summary_response = Fulfilled r ->
    stackCompare Sample.StringToNumber Sample.NumberToString Sample.JSON_stringify
      Sample.mixed_rows_response = Fulfilled rows ->
    forall row, In row rows -> row_p50 row <> sum_p50 r.
Proof.
  repeat (split; [reflexivity|]).
  assert (Hne : Sample.StringToNumber "50" <> Fin 45) by discriminate.
  split; [exact Hne|].
  exact (proj1 (proj2 (proj2
           (string_p50_numeric_median Sample.StringToNumber Sample.NumberToString
              Sample.JSON_stringify Sample.mixed_summary_response
              Sample.mixed_rows_response Sample.mixed_fields "50" (Fin 45)
              eq_refl eq_refl eq_refl eq_refl eq_refl eq_refl eq_refl))) Hne).
Defined.

Lemma stackCompare_row_numbers_witness :
  ok Sample.rows_response = true /\
  existsb row_throws Sample.rows_items = false /\
  exists rows,
    stackCompare Sample.StringToNumber Sample.NumberToString Sample.JSON_stringify
      Sample.rows_response = Fulfilled rows /\
    Forall2 (fun item row =>
               row_stack row = row_stack_rule item /\
               row_number_rule (ToNumber Sample.StringToNumber Sample.NumberToString)
                 (get item "p50") (get item "median") (row_p50 row) /\
               row_number_rule (ToNumber Sample.StringToNumber Sample.NumberToString)
                 (get item "n") (get item "count") (row_n row))
            Sample.rows_items rows.
Proof.
  repeat (split; [reflexivity|]).
  destruct (stackCompare_row_numbers Sample.StringToNumber Sample.NumberToString
              Sample.JSON_stringify Sample.rows_response
              (VObj [("data", VArr Sample.rows_items)]) Sample.rows_items
              eq_refl eq_refl eq_refl) as [Hrules Hret].
  destruct (Hret eq_refl) as [rows Hrows].
  exists rows. split; [exact Hrows|exact (Hrules rows Hrows)].
Defined.

Lemma stackCompare_rejects_iff_witness :
  ok Sample.null_row_response = true /\
  existsb nullish [VNull] = true /\
  stackCompare Sample.StringToNumber Sample.NumberToString Sample.JSON_stringify
    Sample.null_row_response = Rejected TypeError.
Proof.
  repeat (split; [reflexivity|]).
  apply (proj1 (proj2 (proj2 (stackCompare_rejects_iff
                         Sample.StringToNumber Sample.NumberToString
                         Sample.JSON_stringify Sample.null_row_response
                         (VArr [VNull]) eq_refl eq_refl))) [VNull]);
    reflexivity.
Defined.
